(** * Event-Ease: the authentication and authorization core

    A shallow embedding of [app/core/security.py] (password hashing, token
    issuance, token verification, identity resolution, role gate) and of
    the error path of two route handlers of [app/api/api_user.py],
    together with the properties the specification states about them.

    Conventions.
    - A Python call that may raise is a value of [result]: [Ok v] for a
      normal return, [Raise e] for an exception [e] that leaves the call.
    - The wall clock ([datetime.utcnow()], the clock PyJWT reads) is an
      explicit argument [now], counted in microseconds since the epoch,
      the resolution of [datetime]; a [timedelta] is a number of
      microseconds.  The [exp] claim a token carries is a NumericDate, a
      number of whole seconds.
    - [settings], the database session and the role repository are
      arguments, not globals. *)

From Stdlib Require Import ZArith Lia Ascii.
From stdpp Require Import base decidable option list strings gmap.

Local Open Scope Z_scope.

(** ** Exceptions and results *)

(** The subclasses of [jwt.PyJWTError] that [jwt.decode] raises. *)
Inductive JWTErrorKind :=
| DecodeError
| InvalidAlgorithmError
| InvalidSignatureError
| ExpiredSignatureError.

Inductive Exception :=
| HTTPException (status_code : Z) (detail : string)
| PyJWTError (kind : JWTErrorKind)
| ValidationError
| UnknownHashError
| HashValueError
| PasswordSizeError
| PasswordValueError
| TypeError.

Inductive result (A : Type) :=
| Ok (a : A)
| Raise (e : Exception).
Arguments Ok {A} a.
Arguments Raise {A} e.

(** Sequencing: the first exception raised ends the computation.  With
    these instances [x ← c; k] is stdpp's notation for it. *)
Global Instance result_ret : MRet result := fun A a => Ok a.
Global Instance result_bind : MBind result := fun A B k c =>
  match c with
  | Ok a => k a
  | Raise e => Raise e
  end.

(** [try: body / except <caught>: handler]: an exception of a caught class
    is replaced by the handler's outcome, any other one propagates. *)
Definition try_except {A} (body : result A) (caught : Exception → bool)
    (handler : result A) : result A :=
  match body with
  | Ok a => Ok a
  | Raise e => if caught e then handler else Raise e
  end.

Global Instance JWTErrorKind_eq_dec : EqDecision JWTErrorKind.
Proof. solve_decision. Defined.
Global Instance Exception_eq_dec : EqDecision Exception.
Proof. solve_decision. Defined.

(** ** Data model *)

(** Modelled from the spec: the class [app.models.model_user.User] is not
    part of the sources.  The code reads [id] and [user_name]; the
    specification's data model adds the password hash and the
    active/locked status flag. *)
Record User := {
  id : Z;
  user_name : string;
  hash_password : string;
  is_active : bool
}.

Global Instance User_eq_dec : EqDecision User.
Proof. solve_decision. Defined.

(** A JSON claim value, as a Python object: [None], a [str] or an
    [int]. *)
Inductive JVal :=
| VNone
| VStr (s : string)
| VInt (n : Z).

Global Instance JVal_eq_dec : EqDecision JVal.
Proof. solve_decision. Defined.

(** A value of the dictionary handed to [jwt.encode]: a JSON value or a
    [datetime] (microseconds since the epoch). *)
Inductive PyVal :=
| Json (v : JVal)
| Datetime (t : Z).

Global Instance PyVal_eq_dec : EqDecision PyVal.
Proof. solve_decision. Defined.

(** [timedelta(seconds=n)] *)
Definition timedelta_seconds (n : Z) : Z := n * 1000000.

(** [timegm(d.utctimetuple())]: the whole seconds of a [datetime], its
    microseconds dropped. *)
Definition timestamp (t : Z) : Z := t `div` 1000000.

(** The fields of [app.core.config.settings] that the core reads. *)
Record Settings := {
  SECRET_KEY : string;
  SECURITY_ALGORITHM : string;
  ACCESS_TOKEN_EXPIRE_SECONDS : Z
}.

(** ** Strings, the Python way *)

(** [s[:n]] *)
Fixpoint str_take (n : nat) (s : string) : string :=
  match n, s with
  | S n', String c s' => String c (str_take n' s')
  | _, _ => ""
  end.

(** [s[n:]] *)
Fixpoint str_drop (n : nat) (s : string) : string :=
  match n, s with
  | S n', String _ s' => str_drop n' s'
  | _, _ => s
  end.

(** [all(p(c) for c in s)] *)
Fixpoint str_all (p : ascii → bool) (s : string) : bool :=
  match s with
  | EmptyString => true
  | String c s' => p c && str_all p s'
  end.

(** [s[len(prefix):]] when [s.startswith(prefix)] *)
Fixpoint strip_prefix (prefix s : string) : option string :=
  match prefix, s with
  | EmptyString, _ => Some s
  | String a prefix', String b s' =>
      if decide (a = b) then strip_prefix prefix' s' else None
  | String _ _, EmptyString => None
  end.

(** ** passlib: [CryptContext(schemes=["bcrypt"])]

    passlib is a third-party library, not part of the repository; this
    is a model of the behaviour of its bcrypt handler that the module
    relies on.  A bcrypt hash in modular crypt format is
    [ident ++ cost ++ "$" ++ salt ++ checksum], with a two-digit cost
    from 04 to 31, 22 salt characters and 31 checksum characters of the
    bcrypt base-64 alphabet.  The Blowfish computation itself is the
    parameter [bcrypt ident cost salt secret] of the functions that use
    it.  Exceptions: [UnknownHashError] is passlib's; [HashValueError]
    stands for the [ValueError] the bcrypt handler raises while it reads
    a hash string (a malformed hash, a cost out of range, a bad salt or
    checksum); [PasswordSizeError] and [PasswordValueError] are passlib's
    refusals of a secret that is too long or contains a NUL byte. *)
Module Passlib.

Definition ident_values : list string :=
  ["$2$"; "$2a$"; "$2x$"; "$2y$"; "$2b$"].

Definition hash64_chars : string :=
  "./ABCDEFGHIJKLMNOPQRSTUVWXYZabcdefghijklmnopqrstuvwxyz0123456789".

Definition is_hash64 (c : ascii) : bool :=
  bool_decide (c ∈ String.list_ascii_of_string hash64_chars).

(** A string of [n] characters of the bcrypt alphabet. *)
Definition hash64_of_length (n : nat) (s : string) : bool :=
  bool_decide (String.length s = n) && str_all is_hash64 s.

(** A cost field: two decimal digits, of value 4 to 31. *)
Definition valid_cost (cost : string) : bool :=
  match cost with
  | String a (String b EmptyString) =>
      match Ascii.is_nat a, Ascii.is_nat b with
      | Some x, Some y => bool_decide (4 ≤ 10 * x + y ≤ 31)%nat
      | _, _ => false
      end
  | _ => false
  end.

(** [MAX_PASSWORD_SIZE] *)
Definition max_password_size : nat := 4096.

(** No NUL byte in the secret. *)
Definition nul_free (secret : string) : bool :=
  str_all (λ c, bool_decide (c ≠ "000"%char)) secret.

(** [validate_secret(secret)] *)
Definition validate_secret (secret : string) : result unit :=
  if bool_decide (String.length secret ≤ max_password_size)%nat
  then Ok tt
  else Raise PasswordSizeError.

Record BcryptHash := {
  ident : string;
  rounds : string;
  salt : string;
  checksum : string
}.

(** What a well-formed bcrypt hash string is. *)
Definition well_formed (hash : string) : Prop :=
  ∃ i cost salt chk,
    i ∈ ident_values ∧ i ≠ "$2x$" ∧ valid_cost cost = true ∧
    hash64_of_length 22 salt = true ∧ hash64_of_length 31 chk = true ∧
    hash = i +:+ cost +:+ "$" +:+ salt +:+ chk.

(** [_parse_ident]: the first known prefix of the hash, and the rest. *)
Fixpoint parse_ident (idents : list string) (hash : string)
    : option (string * string) :=
  match idents with
  | [] => None
  | i :: idents' =>
      match strip_prefix i hash with
      | Some tail => Some (i, tail)
      | None => parse_ident idents' hash
      end
  end.

(** [bcrypt.identify(hash)] *)
Definition identify (hash : string) : bool :=
  bool_decide (is_Some (parse_ident ident_values hash)).

(** [bcrypt.from_string(hash)] followed by the handler's checks of the
    cost, the salt and the checksum: every string that is not of the
    format above ends in a [ValueError]. *)
Definition from_string (hash : string) : result BcryptHash :=
  match parse_ident ident_values hash with
  | None => Raise HashValueError
  | Some (i, tail) =>
      let rounds_str := str_take 2 tail in
      let rest := str_drop 2 tail in
      let sep := str_take 1 rest in
      let data := str_drop 1 rest in
      let salt := str_take 22 data in
      let chk := str_drop 22 data in
      if bool_decide (i ≠ "$2x$")
         && valid_cost rounds_str
         && bool_decide (sep = "$")
         && hash64_of_length 22 salt
         && hash64_of_length 31 chk
      then Ok {| ident := i; rounds := rounds_str; salt := salt;
                 checksum := chk |}
      else Raise HashValueError
  end.

Section Digest.
Variable bcrypt : string → string → string → string → string.

(** [_calc_checksum(secret)]: a secret with a NUL byte is refused. *)
Definition calc_checksum (ident rounds salt secret : string)
    : result string :=
  if nul_free secret
  then Ok (bcrypt ident rounds salt secret)
  else Raise PasswordValueError.

(** [CryptContext.verify(secret, hash)]: [None] is answered with [False];
    a string no configured scheme identifies raises [UnknownHashError];
    for an identified hash the size of the secret is checked, the hash is
    parsed and its checksum recomputed. *)
Definition verify (secret : string) (hash : option string) : result bool :=
  match hash with
  | None => Ok false
  | Some hash =>
      if identify hash then
        _ ← validate_secret secret;
        h ← from_string hash;
        chk ← calc_checksum (ident h) (rounds h) (salt h) secret;
        Ok (bool_decide (chk = checksum h))
      else Raise UnknownHashError
  end.

(** [CryptContext.hash(secret)], with the salt it draws as an argument;
    identifier [$2b$] and cost 12 are passlib's defaults. *)
Definition hash (new_salt secret : string) : result string :=
  _ ← validate_secret secret;
  chk ← calc_checksum "$2b$" "12" new_salt secret;
  Ok ("$2b$" +:+ "12" +:+ "$" +:+ new_salt +:+ chk).

End Digest.
End Passlib.

(** ** PyJWT

    PyJWT is a third-party library, not part of the repository; this is
    a symbolic model of a compact JWS under a symmetric (HMAC) algorithm:
    a well-formed token records the algorithm of its header, the key its
    signature was made with and its claims; the signature verifies with
    that algorithm and key only.  Any other string is [Opaque].  Of the
    registered claims [decode] interprets [exp], as an integer. *)
Module Jwt.

Inductive Token :=
| JWS (alg : string) (key : string) (payload : gmap string JVal)
| Opaque (raw : string).

(** A [datetime] becomes the integer NumericDate. *)
Definition to_numeric_date (v : PyVal) : PyVal :=
  match v with
  | Datetime t => Json (VInt (timestamp t))
  | _ => v
  end.

Definition json_value (v : PyVal) : option JVal :=
  match v with
  | Json v => Some v
  | Datetime _ => None
  end.

(** [jwt.encode(payload, key, algorithm=...)]: a [datetime] under [exp],
    [iat] or [nbf] is converted; any other [datetime] is not JSON
    serializable and ends in a [TypeError]. *)
Definition encode (payload : gmap string PyVal) (key algorithm : string)
    : result Token :=
  let payload :=
    alter to_numeric_date "nbf"
      (alter to_numeric_date "iat"
         (alter to_numeric_date "exp" payload)) in
  if bool_decide (map_Forall (λ _ v, is_Some (json_value v)) payload)
  then Ok (JWS algorithm key (omap json_value payload))
  else Raise TypeError.

(** [jwt.decode(token, key, algorithms=[...])] at time [now]: the
    encoding, the algorithm, the signature and then the expiry are
    checked; a token is expired once [exp <= now], [exp] in seconds and
    [now] a timestamp with its fraction. *)
Definition decode (token : Token) (key : string) (algorithms : list string)
    (now : Z) : result (gmap string JVal) :=
  match token with
  | Opaque _ => Raise (PyJWTError DecodeError)
  | JWS alg k payload =>
      if negb (bool_decide (alg ∈ algorithms))
      then Raise (PyJWTError InvalidAlgorithmError)
      else if negb (bool_decide (k = key))
      then Raise (PyJWTError InvalidSignatureError)
      else match payload !! "exp" with
           | None => Ok payload
           | Some (VInt exp) =>
               if bool_decide (exp * 1000000 ≤ now)
               then Raise (PyJWTError ExpiredSignatureError)
               else Ok payload
           | Some _ => Raise (PyJWTError DecodeError)
           end
  end.

(** The claim [name] a token carries, if it is well formed. *)
Definition claim (token : Token) (name : string) : option JVal :=
  match token with
  | JWS _ _ payload => payload !! name
  | Opaque _ => None
  end.

(** The claim [name] of the token a call of [encode] returned. *)
Definition issued_claim (issued : result Token) (name : string)
    : option JVal :=
  match issued with
  | Ok token => claim token name
  | Raise _ => None
  end.

End Jwt.

Module Security.

Section Hasher.
Variable bcrypt : string → string → string → string → string.

(** *** verify_password *)
Definition verify_password (password : string) (hash_password : option string)
    : result bool :=
  Passlib.verify bcrypt password hash_password.

(** *** get_password_hash; [new_salt] is the salt passlib draws. *)
Definition get_password_hash (new_salt password : string) : result string :=
  Passlib.hash bcrypt new_salt password.

End Hasher.

Section Tokens.
Variable settings : Settings.

(** [expires_delta or timedelta(seconds=default)]: [None] and the zero
    duration are falsy. *)
Definition or_default (expires_delta : option Z) (default : Z) : Z :=
  match expires_delta with
  | None => default
  | Some d => if bool_decide (d = 0) then default else d
  end.

(** *** create_access_token, called at time [now]; [data] holds the
    JSON claims the caller gives. *)
Definition create_access_token (data : gmap string JVal)
    (expires_delta : option Z) (now : Z) : result Jwt.Token :=
  let to_encode : gmap string PyVal := Json <$> data in
  let expire :=
    now + or_default expires_delta
            (timedelta_seconds (ACCESS_TOKEN_EXPIRE_SECONDS settings)) in
  let to_encode := <["exp" := Datetime expire]> to_encode in
  Jwt.encode to_encode (SECRET_KEY settings) (SECURITY_ALGORITHM settings).

(** [except (jwt.PyJWTError, ValidationError)] *)
Definition caught_by_get_current_user (e : Exception) : bool :=
  match e with
  | PyJWTError _ | ValidationError => true
  | _ => false
  end.

(** The [try] statement of [get_current_user]: the token is decoded and
    its [sub] claim read. *)
Definition token_subject (credentials : Jwt.Token) (now : Z) : result JVal :=
  try_except
    (payload ← Jwt.decode credentials (SECRET_KEY settings)
                 [SECURITY_ALGORITHM settings] now;
     match payload !! "sub" with
     | None | Some VNone =>
         Raise (HTTPException 401 "Không thể xác thực thông tin đăng nhập")
     | Some username => Ok username
     end)
    caught_by_get_current_user
    (Raise (HTTPException 403 "Token không hợp lệ")).

(** [session.query(User).filter(User.user_name == username).first()], the
    session being the rows of the user table. *)
Definition query_first (session : list User) (username : JVal)
    : option User :=
  head (filter (λ u, VStr (user_name u) = username) session).

(** *** get_current_user, called at time [now] *)
Definition get_current_user (credentials : Jwt.Token) (session : list User)
    (now : Z) : result User :=
  username ← token_subject credentials now;
  match query_first session username with
  | None =>
      Raise (HTTPException 403 "Không thể xác thực thông tin đăng nhập 3")
  | Some user => Ok user
  end.

End Tokens.

(** *** check_permissions *)

(** Python's [x in xs] on a list of strings. *)
Definition py_in (x : string) (xs : list string) : bool :=
  bool_decide (x ∈ xs).

(** Python's [any(...)] over a generator of booleans. *)
Definition py_any {A} (p : A → bool) (xs : list A) : bool := existsb p xs.

(** [check_permissions(required_roles)] returns the dependency
    [permission_checker]; [get_role_names_by_user_id] stands for the
    injected [UserRoleRepository]. *)
Definition check_permissions (required_roles : list string)
    (get_role_names_by_user_id : Z → list string)
    (current_user : User) : result User :=
  let user_roles := get_role_names_by_user_id (id current_user) in
  if negb (py_any (fun role => py_in role required_roles) user_roles)
  then Raise (HTTPException 403 "Bạn không có quyền truy cập")
  else Ok current_user.

End Security.

(** ** The route handlers [get] and [get_roles_of_user]

    The service layer and the pagination helper are arguments: each call
    either returns or raises, and of a raised exception [e] the handlers
    read [str(e)] and, through [traceback.format_exc()], the formatted
    stack trace.  A handler's outcome is what it printed and either its
    return value or the [CustomException] it raised, whose fields the
    error envelope is built from. *)
Module ApiUser.

Record Caught := {
  str : string;
  format_exc : string
}.

Inductive outcome (A : Type) :=
| Return (a : A)
| Raised (e : Caught).
Arguments Return {A} a.
Arguments Raised {A} e.

Record CustomException := {
  http_code : Z;
  code : string;
  message : string
}.

Record Handled (A : Type) := {
  printed : list string;
  response : A + CustomException
}.
Arguments printed {A} h.
Arguments response {A} h.

(** [DataResponse().custom_response(code, message, data)] *)
Record DataResponse (D : Type) := {
  dr_code : string;
  dr_message : string;
  dr_data : D
}.
Arguments dr_code {D} d.
Arguments dr_message {D} d.
Arguments dr_data {D} d.

(** [s1 in s2] on strings *)
Fixpoint str_contains (needle hay : string) : bool :=
  match strip_prefix needle hay with
  | Some _ => true
  | None =>
      match hay with
      | EmptyString => false
      | String _ hay' => str_contains needle hay'
      end
  end.

Section Handlers.
Context {Query Params Page Data : Type}.

(** The [try] body of [get]. *)
Definition get_body (params : Params) (get_all_user : outcome Query)
    (paginate : Query → Params → outcome Page) : outcome Page :=
  match get_all_user with
  | Return _query => paginate _query params
  | Raised e => Raised e
  end.

(** *** get *)
Definition get (params : Params) (get_all_user : outcome Query)
    (paginate : Query → Params → outcome Page) : Handled Page :=
  match get_body params get_all_user paginate with
  | Return users => {| printed := []; response := inl users |}
  | Raised e =>
      let error_details := format_exc e in
      {| printed := ["Error occurred: " +:+ error_details];
         response := inr {| http_code := 400; code := "400";
                            message := str e +:+ ": " +:+ error_details |} |}
  end.

(** *** get_roles_of_user *)
Definition get_roles_of_user (user_id : Z)
    (get_roles_by_user_id : Z → outcome Data) : Handled (DataResponse Data) :=
  match get_roles_by_user_id user_id with
  | Return data =>
      {| printed := [];
         response := inl {| dr_code := "200";
                            dr_message := "Lấy danh sách vai trò của người dùng";
                            dr_data := data |} |}
  | Raised e =>
      let error_details := format_exc e in
      {| printed := ["Error occurred: " +:+ error_details];
         response := inr {| http_code := 400; code := "400";
                            message := str e +:+ ": " +:+ error_details |} |}
  end.

End Handlers.

(** The message of the [CustomException] a handler raised, if it did. *)
Definition error_message {A} (h : Handled A) : option string :=
  match response h with
  | inl _ => None
  | inr exc => Some (message exc)
  end.

End ApiUser.

(** ** The denials of the core, and sample data *)

Definition Forbidden : Exception :=
  HTTPException 403 "Bạn không có quyền truy cập".

Definition InvalidToken : Exception :=
  HTTPException 403 "Token không hợp lệ".

Definition MissingSubject : Exception :=
  HTTPException 401 "Không thể xác thực thông tin đăng nhập".

Definition UnknownSubject : Exception :=
  HTTPException 403 "Không thể xác thực thông tin đăng nhập 3".

Module Sample.

Definition settings : Settings :=
  {| SECRET_KEY := "s3cr3t"; SECURITY_ALGORITHM := "HS256";
     ACCESS_TOKEN_EXPIRE_SECONDS := 1800 |}.

Definition alice : User :=
  {| id := 1; user_name := "alice"; hash_password := "x"; is_active := true |}.

(** A locked account. *)
Definition bob : User :=
  {| id := 2; user_name := "bob"; hash_password := "y"; is_active := false |}.

Definition session : list User := [alice; bob].

Definition roles (user_id : Z) : list string :=
  if bool_decide (user_id = 1) then ["ADMIN"] else ["VIEWER"].

(** The token for [sub] issued 1000 seconds after the epoch for 60
    seconds: [create_access_token settings {"sub": sub} (Some 60000000)
    1000000000] returns it. *)
Definition token_for (sub : string) : Jwt.Token :=
  Jwt.JWS "HS256" "s3cr3t" (<["exp" := VInt 1060]> {[ "sub" := VStr sub ]}).

(** A stand-in for the Blowfish computation, of the right shape. *)
Definition bcrypt (ident rounds salt secret : string) : string :=
  "abcdefghijklmnopqrstuvwxyzABCDE".

Definition salt : string := "0123456789abcdefghijkl".

Definition db_down : ApiUser.Caught :=
  {| ApiUser.str := "connection to server at 10.0.0.5 refused";
     ApiUser.format_exc :=
       "Traceback (most recent call last): File /app/services/user_service.py, line 31, in get_all_user" |}.

Definition timeout : ApiUser.Caught :=
  {| ApiUser.str := "statement timeout";
     ApiUser.format_exc :=
       "Traceback (most recent call last): File /app/helpers/paging.py, line 12, in paginate" |}.

(** [get] when the service call fails, [get] when pagination fails, and
    [get_roles_of_user] when the service call fails. *)
Definition get_service_down : ApiUser.Handled unit :=
  ApiUser.get tt (ApiUser.Raised db_down : ApiUser.outcome unit)
    (λ _ _, ApiUser.Return tt).

Definition get_paginate_timeout : ApiUser.Handled unit :=
  ApiUser.get tt (ApiUser.Return tt) (λ _ _, ApiUser.Raised timeout).

Definition roles_service_down : ApiUser.Handled (ApiUser.DataResponse unit) :=
  ApiUser.get_roles_of_user 7 (λ _, ApiUser.Raised db_down).

End Sample.

(** ** The role gate as a dependency

    [permission_checker] declares [current_user = Depends(get_current_user)]:
    when a route depends on [check_permissions(required_roles)], the
    framework first resolves [get_current_user] on the bearer credentials
    of the request and, if that returns, runs the body of the gate on the
    user it returned.  [credentials] are the credentials [HTTPBearer] took
    from the [Authorization] header: a request without a bearer header is
    answered by [HTTPBearer] itself and does not reach this code. *)
Module Pipeline.

(** The same outcome, with [f] applied to a returned value. *)
Definition result_map {A B} (f : A → B) (r : result A) : result B :=
  match r with
  | Ok a => Ok (f a)
  | Raise e => Raise e
  end.

Definition permission_checker (settings : Settings)
    (required_roles : list string) (credentials : Jwt.Token)
    (session : list User) (get_role_names_by_user_id : Z → list string)
    (now : Z) : result User :=
  current_user ← Security.get_current_user settings credentials session now;
  Security.check_permissions required_roles get_role_names_by_user_id
    current_user.

End Pipeline.

(** ** The other route handlers of [api_user.py]

    Their [except] clauses tell exception classes apart, so an exception
    raised by the service layer carries, besides what [str(e)] and
    [traceback.format_exc()] give, the outcome of the two [isinstance]
    tests the clauses make.  The classes [HTTPException] and
    [CustomException] are not related by any assumption here. *)
Module UserRoutes.

Record Thrown := {
  seen : ApiUser.Caught;
  isinstance_HTTPException : bool;
  isinstance_CustomException : bool
}.

Inductive called (A : Type) :=
| Returns (a : A)
| Raises (e : Thrown).
Arguments Returns {A} a.
Arguments Raises {A} e.

(** How a handler ends: with its return value, with a [CustomException]
    it built, or with the exception of the service as it was raised
    ([raise e], or no clause caught it). *)
Inductive reply (A : Type) :=
| Respond (a : A)
| RaiseCustom (exc : ApiUser.CustomException)
| Reraise (e : Thrown).
Arguments Respond {A} a.
Arguments RaiseCustom {A} exc.
Arguments Reraise {A} e.

Record Handled (A : Type) := {
  printed : list string;
  outcome : reply A
}.
Arguments printed {A} h.
Arguments outcome {A} h.

(** [CustomException(http_code=400, code="400", message=...)] *)
Definition bad_request (message : string) : ApiUser.CustomException :=
  {| ApiUser.http_code := 400; ApiUser.code := "400";
     ApiUser.message := message |}.

(** [DataResponse().custom_response(code=..., message=..., data=...)] *)
Definition custom_response {D} (code message : string) (data : D)
    : ApiUser.DataResponse D :=
  {| ApiUser.dr_code := code; ApiUser.dr_message := message;
     ApiUser.dr_data := data |}.

Section Handlers.
Context {Data UserRequestUpdate UserRegisterRequest : Type}.

(** *** get_detail *)
Definition get_detail (id : Z) (get_user_by_id : Z → called Data)
    : Handled (ApiUser.DataResponse Data) :=
  match get_user_by_id id with
  | Returns data =>
      {| printed := [];
         outcome := Respond (custom_response "200"
                               "Xem thông tin chi tiết người dùng" data) |}
  | Raises e =>
      if isinstance_CustomException e
      then {| printed := [];
              outcome := RaiseCustom (bad_request (ApiUser.str (seen e))) |}
      else {| printed := []; outcome := Reraise e |}
  end.

(** *** remove_role_from_user *)
Definition remove_role_from_user (user_id role_id : Z)
    (service : Z → Z → called Data) : Handled (ApiUser.DataResponse Data) :=
  match service user_id role_id with
  | Returns result =>
      {| printed := [];
         outcome := Respond (custom_response "200"
                               "Vai trò đã được gỡ bỏ" result) |}
  | Raises e =>
      if isinstance_HTTPException e
      then {| printed := []; outcome := Reraise e |}
      else
        let error_details := ApiUser.format_exc (seen e) in
        {| printed := ["Error occurred: " +:+ error_details];
           outcome := RaiseCustom (bad_request (ApiUser.str (seen e))) |}
  end.

(** *** change_status *)
Definition change_status (user_id : Z) (service : Z → called Data)
    : Handled (ApiUser.DataResponse Data) :=
  match service user_id with
  | Returns result =>
      {| printed := [];
         outcome := Respond (custom_response "200"
                               "Chuyển đổi trạng thái thành công" result) |}
  | Raises e =>
      if isinstance_HTTPException e
      then {| printed := []; outcome := Reraise e |}
      else
        let error_details := ApiUser.format_exc (seen e) in
        {| printed := ["Error occurred: " +:+ error_details];
           outcome := RaiseCustom (bad_request (ApiUser.str (seen e))) |}
  end.

(** *** update_user *)
Definition update_user (id : Z) (data : UserRequestUpdate)
    (service : Z → UserRequestUpdate → called Data)
    : Handled (ApiUser.DataResponse Data) :=
  match service id data with
  | Returns user =>
      {| printed := [];
         outcome := Respond (custom_response "200"
                               "Cập nhật người dùng thành công" user) |}
  | Raises e =>
      {| printed := [];
         outcome := RaiseCustom (bad_request (ApiUser.str (seen e))) |}
  end.

(** *** delete_user *)
Definition delete_user (user_id : Z) (service : Z → called Data)
    : Handled (ApiUser.DataResponse Data) :=
  match service user_id with
  | Returns result =>
      {| printed := [];
         outcome := Respond (custom_response "200"
                               "Xóa người dùng thành công" result) |}
  | Raises e =>
      if isinstance_HTTPException e
      then {| printed := []; outcome := Reraise e |}
      else
        let error_details := ApiUser.format_exc (seen e) in
        {| printed := ["Error occurred: " +:+ error_details];
           outcome := RaiseCustom (bad_request (ApiUser.str (seen e))) |}
  end.

(** *** create_user *)
Definition create_user (user_data : UserRegisterRequest)
    (service : UserRegisterRequest → called Data)
    : Handled (ApiUser.DataResponse Data) :=
  match service user_data with
  | Returns new_user =>
      {| printed := [];
         outcome := Respond (custom_response "201"
                               "Tạo mới người dùng thành công" new_user) |}
  | Raises e =>
      {| printed := [];
         outcome := RaiseCustom (bad_request (ApiUser.str (seen e))) |}
  end.

(** *** assign_roles_to_user *)
Definition assign_roles_to_user (user_id : Z) (role_ids : list Z)
    (service : Z → list Z → called Data)
    : Handled (ApiUser.DataResponse Data) :=
  match service user_id role_ids with
  | Returns data =>
      {| printed := [];
         outcome := Respond (custom_response "201"
                               "Gán vai trò cho người dùng thành công" data) |}
  | Raises e =>
      if isinstance_CustomException e
      then {| printed := [];
              outcome := RaiseCustom (bad_request (ApiUser.str (seen e))) |}
      else {| printed := []; outcome := Reraise e |}
  end.

End Handlers.

(** The [CustomException] a handler built, if it ended that way. *)
Definition raised_custom {A} (h : Handled A)
    : option ApiUser.CustomException :=
  match outcome h with
  | RaiseCustom exc => Some exc
  | _ => None
  end.

(** A [CustomException] built by the handler [h] stems from an exception
    [e] of the service call [c], and is [bad_request (str(e))]. *)
Definition wraps_service_error {A D} (h : Handled A) (c : called D) : Prop :=
  ∀ exc, raised_custom h = Some exc →
    ∃ e, c = Raises e ∧ exc = bad_request (ApiUser.str (seen e)).

(** The handler [h] returned a response with the given code and data and
    printed nothing. *)
Definition responds_with {D} (h : Handled (ApiUser.DataResponse D))
    (code : string) (data : D) : Prop :=
  printed h = [] ∧
  ∃ r, outcome h = Respond r ∧ ApiUser.dr_code r = code ∧
       ApiUser.dr_data r = data.

End UserRoutes.

(** More sample data: a checksum stand-in that tells two secrets apart, a
    not-found error of the service layer raised as an [HTTPException], and
    a plain [ValueError]. *)
Module Sample2.

Definition bcrypt (ident rounds salt secret : string) : string :=
  if bool_decide (secret = "hunter2")
  then "abcdefghijklmnopqrstuvwxyzABCDE"
  else "0123456789abcdefghijklmnopqrstu".

Definition not_found : UserRoutes.Thrown :=
  {| UserRoutes.seen :=
       {| ApiUser.str := "404: User not found";
          ApiUser.format_exc :=
            "Traceback (most recent call last): File /app/services/user_service.py, line 58, in change_status" |};
     UserRoutes.isinstance_HTTPException := true;
     UserRoutes.isinstance_CustomException := false |}.

Definition value_error : UserRoutes.Thrown :=
  {| UserRoutes.seen :=
       {| ApiUser.str := "invalid literal for int()";
          ApiUser.format_exc :=
            "Traceback (most recent call last): File /app/services/user_service.py, line 77, in delete_user" |};
     UserRoutes.isinstance_HTTPException := false;
     UserRoutes.isinstance_CustomException := false |}.

Definition conflict : UserRoutes.Thrown :=
  {| UserRoutes.seen :=
       {| ApiUser.str := "Role already assigned";
          ApiUser.format_exc :=
            "Traceback (most recent call last): File /app/services/user_service.py, line 90, in assign_roles_to_user" |};
     UserRoutes.isinstance_HTTPException := false;
     UserRoutes.isinstance_CustomException := true |}.

End Sample2.

(** ** Properties of the role gate *)

Section PermissionChecker.
Import Security.

Lemma py_any_in (required user_roles : list string) :
  py_any (fun role => py_in role required) user_roles = true ↔
  ∃ role, role ∈ user_roles ∧ role ∈ required.
Proof.
  unfold py_any, py_in. rewrite existsb_exists. split.
  - intros (r & Hin & Hr). exists r. split.
    + by apply list_elem_of_In.
    + by apply bool_decide_eq_true in Hr.
  - intros (r & Hin & Hr). exists r. split.
    + by apply list_elem_of_In.
    + by apply bool_decide_eq_true.
Qed.

Lemma roles_intersect (required user_roles : list string) :
  (∃ role, role ∈ user_roles ∧ role ∈ required) ↔
  (list_to_set user_roles ∩ list_to_set required : gset string) ≠ ∅.
Proof.
  split.
  - intros (r & H1 & H2) Hempty.
    assert (r ∈ (list_to_set user_roles ∩ list_to_set required : gset string))
      as Hr by (apply elem_of_intersection; by rewrite !elem_of_list_to_set).
    rewrite Hempty in Hr. by apply not_elem_of_empty in Hr.
  - intros Hne. apply set_choose_L in Hne as [r Hr].
    apply elem_of_intersection in Hr as [H1 H2].
    rewrite elem_of_list_to_set in H1. rewrite elem_of_list_to_set in H2.
    by exists r.
Qed.


End PermissionChecker.

(** C4: for a non-empty required-role set, [check_permissions] returns the
    principal exactly when the role names the repository reports for the
    principal's id and the required set have a non-empty intersection, and
    raises the 403 Forbidden exception otherwise. *)
Theorem check_permissions_iff_intersection
    (required : list string) (repo : Z → list string) (u : User) :
  required ≠ [] →
  (Security.check_permissions required repo u = Ok u ↔
     (list_to_set (repo (id u)) ∩ list_to_set required : gset string) ≠ ∅) ∧
  (Security.check_permissions required repo u = Raise Forbidden ↔
     (list_to_set (repo (id u)) ∩ list_to_set required : gset string) = ∅).
Proof.
  intros _.
  pose proof (py_any_in required (repo (id u))) as Hany.
  rewrite roles_intersect in Hany.
  unfold Security.check_permissions, Forbidden.
  destruct (Security.py_any _ _); simpl; split; split; intros H.
  - by apply Hany.
  - done.
  - discriminate.
  - exfalso. by apply (proj1 Hany).
  - discriminate.
  - apply Hany in H. discriminate.
  - apply dec_stable. intros Hne. apply Hany in Hne. discriminate.
  - done.
Qed.

Lemma check_permissions_iff_intersection_witness :
  ["ADMIN"; "EDITOR"] ≠ [] ∧
  (Security.check_permissions ["ADMIN"; "EDITOR"] Sample.roles Sample.alice
     = Ok Sample.alice ↔
   (list_to_set (Sample.roles (id Sample.alice))
      ∩ list_to_set ["ADMIN"; "EDITOR"] : gset string) ≠ ∅).
Proof.
  split; [done |].
  apply (check_permissions_iff_intersection
           ["ADMIN"; "EDITOR"] Sample.roles Sample.alice).
  done.
Defined.

(** C1, as stated, fails: with an empty required-role set the gate turns
    away a principal whose roles the repository reports as [ADMIN]. *)
Lemma check_permissions_empty_counterexample :
  Security.check_permissions [] Sample.roles Sample.alice ≠ Ok Sample.alice.
Proof. vm_compute. discriminate. Qed.

(** C1, amended: with an empty required-role set [check_permissions]
    raises the 403 Forbidden exception for every principal, whatever roles
    the repository reports. *)
Theorem check_permissions_empty_forbidden
    (repo : Z → list string) (u : User) :
  Security.check_permissions [] repo u = Raise Forbidden.
Proof.
  unfold Security.check_permissions, Forbidden.
  replace (Security.py_any _ _) with false; [done |].
  unfold Security.py_any. induction (repo (id u)) as [|r rs IH]; [done |].
  simpl. by rewrite <- IH.
Qed.

(** ** Properties of token issuance *)

Section Issuance.
Variable settings : Settings.

Lemma alter_to_numeric_date_json name (claims : gmap string JVal) :
  alter Jwt.to_numeric_date name (Json <$> claims) = Json <$> claims.
Proof.
  apply map_eq. intros i. destruct (decide (name = i)) as [->|Hne].
  - rewrite lookup_alter_eq, lookup_fmap. by destruct (claims !! i).
  - by rewrite lookup_alter_ne.
Qed.

(** JSON claims are signed as they are. *)
Lemma encode_json (claims : gmap string JVal) key alg :
  Jwt.encode (Json <$> claims) key alg = Ok (Jwt.JWS alg key claims).
Proof.
  unfold Jwt.encode. rewrite !alter_to_numeric_date_json.
  rewrite bool_decide_eq_true_2.
  - do 2 f_equal. apply map_eq. intros i.
    rewrite lookup_omap, lookup_fmap. by destruct (claims !! i).
  - apply map_Forall_lookup. intros i x Hx. rewrite lookup_fmap in Hx.
    destruct (claims !! i); simplify_eq/=. eauto.
Qed.

Lemma encode_insert_exp (data : gmap string JVal) key alg t :
  Jwt.encode (<["exp" := Datetime t]> (Json <$> data)) key alg =
  Ok (Jwt.JWS alg key (<["exp" := VInt (timestamp t)]> data)).
Proof.
  rewrite <- encode_json, fmap_insert. unfold Jwt.encode.
  by rewrite !alter_insert_eq.
Qed.

Lemma create_access_token_eq (data : gmap string JVal) expires_delta now :
  Security.create_access_token settings data expires_delta now =
  Ok (Jwt.JWS (SECURITY_ALGORITHM settings) (SECRET_KEY settings)
        (<["exp" :=
             VInt (timestamp
                     (now + Security.or_default expires_delta
                              (timedelta_seconds
                                 (ACCESS_TOKEN_EXPIRE_SECONDS settings))))]>
           data)).
Proof. unfold Security.create_access_token. apply encode_insert_exp. Qed.

(** A token just signed decodes, before its expiry, to its claims. *)
Lemma decode_signed (payload : gmap string JVal) key alg exp now :
  payload !! "exp" = Some (VInt exp) → now < exp * 1000000 →
  Jwt.decode (Jwt.JWS alg key payload) key [alg] now = Ok payload.
Proof.
  intros Hexp Hlt. unfold Jwt.decode.
  rewrite bool_decide_eq_true_2 by apply list_elem_of_here.
  rewrite bool_decide_eq_true_2 by done. simpl. rewrite Hexp.
  by rewrite bool_decide_eq_false_2 by lia.
Qed.

(** A token with the configured signature is refused from its expiry on. *)
Lemma decode_expired (payload : gmap string JVal) key alg exp now :
  payload !! "exp" = Some (VInt exp) → exp * 1000000 ≤ now →
  Jwt.decode (Jwt.JWS alg key payload) key [alg] now
    = Raise (PyJWTError ExpiredSignatureError).
Proof.
  intros Hexp Hle. unfold Jwt.decode.
  rewrite bool_decide_eq_true_2 by apply list_elem_of_here.
  rewrite bool_decide_eq_true_2 by done. simpl. rewrite Hexp.
  by rewrite bool_decide_eq_true_2.
Qed.

End Issuance.

(** The sample token is the one the module issues. *)
Lemma token_for_issued (sub : string) :
  Security.create_access_token Sample.settings {[ "sub" := VStr sub ]}
    (Some 60000000) 1000000000 = Ok (Sample.token_for sub).
Proof. by rewrite create_access_token_eq. Qed.

(** C8, as stated, fails: a zero [expires_delta] is given, yet the expiry
    is not the current time plus that duration. *)
Lemma create_access_token_zero_counterexample :
  Jwt.issued_claim
    (Security.create_access_token Sample.settings {[ "sub" := VStr "alice" ]}
       (Some 0) 1000000000) "exp"
  = Some (VInt (1000 + 1800)) ∧
  Jwt.issued_claim
    (Security.create_access_token Sample.settings {[ "sub" := VStr "alice" ]}
       (Some 0) 1000000000) "exp"
  ≠ Some (VInt (timestamp (1000000000 + 0))).
Proof. vm_compute. split; [done | discriminate]. Qed.

(** C8, amended: the claim set [create_access_token] signs holds the given
    claims with [exp] set to the current time plus the ttl, the ttl being
    [expires_delta] when one is given and is not the zero duration, and
    the configured default lifetime when none is given; it is signed with
    the configured secret and the configured algorithm, and the issued
    token carries that [exp] as a NumericDate, in whole seconds. *)
Theorem create_access_token_claims
    (settings : Settings) (data : gmap string JVal) (now : Z) :
  (∀ d, d ≠ 0 →
     Security.create_access_token settings data (Some d) now =
     Jwt.encode (<["exp" := Datetime (now + d)]> (Json <$> data))
       (SECRET_KEY settings) (SECURITY_ALGORITHM settings) ∧
     Security.create_access_token settings data (Some d) now =
     Ok (Jwt.JWS (SECURITY_ALGORITHM settings) (SECRET_KEY settings)
           (<["exp" := VInt (timestamp (now + d))]> data))) ∧
  Security.create_access_token settings data None now =
  Jwt.encode
    (<["exp" :=
         Datetime (now + timedelta_seconds
                           (ACCESS_TOKEN_EXPIRE_SECONDS settings))]>
       (Json <$> data))
    (SECRET_KEY settings) (SECURITY_ALGORITHM settings) ∧
  Security.create_access_token settings data None now =
  Ok (Jwt.JWS (SECURITY_ALGORITHM settings) (SECRET_KEY settings)
        (<["exp" :=
             VInt (timestamp
                     (now + timedelta_seconds
                              (ACCESS_TOKEN_EXPIRE_SECONDS settings)))]>
           data)).
Proof.
  split_and!.
  - intros d Hd. split.
    + unfold Security.create_access_token. simpl.
      by rewrite bool_decide_eq_false_2.
    + rewrite create_access_token_eq. simpl.
      by rewrite bool_decide_eq_false_2.
  - done.
  - by rewrite create_access_token_eq.
Qed.

Lemma create_access_token_claims_witness :
  Security.create_access_token Sample.settings {[ "sub" := VStr "alice" ]}
    (Some 60000000) 1000000000 =
  Ok (Jwt.JWS "HS256" "s3cr3t"
        (<["exp" := VInt (timestamp (1000000000 + 60000000))]>
           {[ "sub" := VStr "alice" ]})).
Proof.
  apply (proj1 (create_access_token_claims
                  Sample.settings {[ "sub" := VStr "alice" ]} 1000000000)
           60000000).
  lia.
Defined.

(** C10: called with a zero [expires_delta], [create_access_token] issues
    the token it issues with no [expires_delta] at all: the claim set it
    signs has [exp] at the current time plus [ACCESS_TOKEN_EXPIRE_SECONDS]
    seconds, and the token carries that instant as its [exp]. *)
Theorem create_access_token_zero_is_default
    (settings : Settings) (data : gmap string JVal) (now : Z) :
  Security.create_access_token settings data (Some 0) now =
  Security.create_access_token settings data None now ∧
  Security.create_access_token settings data (Some 0) now =
  Jwt.encode
    (<["exp" :=
         Datetime (now + timedelta_seconds
                           (ACCESS_TOKEN_EXPIRE_SECONDS settings))]>
       (Json <$> data))
    (SECRET_KEY settings) (SECURITY_ALGORITHM settings) ∧
  Jwt.issued_claim
    (Security.create_access_token settings data (Some 0) now) "exp" =
  Some (VInt (timestamp
                (now + timedelta_seconds
                         (ACCESS_TOKEN_EXPIRE_SECONDS settings)))).
Proof.
  split_and!; [done | done |].
  rewrite create_access_token_eq. simpl. apply lookup_insert_eq.
Qed.

(** ** Properties of token verification and identity resolution *)

Section Resolution.
Variable settings : Settings.

Lemma token_subject_decode_error tok now k :
  Jwt.decode tok (SECRET_KEY settings) [SECURITY_ALGORITHM settings] now
    = Raise (PyJWTError k) →
  Security.token_subject settings tok now = Raise InvalidToken.
Proof. intros H. unfold Security.token_subject. by rewrite H. Qed.

Lemma get_current_user_subject_error tok session now e :
  Security.token_subject settings tok now = Raise e →
  Security.get_current_user settings tok session now = Raise e.
Proof. intros H. unfold Security.get_current_user. by rewrite H. Qed.

Lemma get_current_user_resolved tok session now username :
  Security.token_subject settings tok now = Ok username →
  Security.get_current_user settings tok session now =
  match Security.query_first session username with
  | None => Raise UnknownSubject
  | Some user => Ok user
  end.
Proof. intros H. unfold Security.get_current_user. by rewrite H. Qed.

(** A token without a [sub] claim: the 401 raised inside the [try] is not
    of a caught class and leaves [get_current_user] as it is. *)
Lemma get_current_user_missing_sub tok session now payload :
  Jwt.decode tok (SECRET_KEY settings) [SECURITY_ALGORITHM settings] now
    = Ok payload →
  payload !! "sub" = None →
  Security.get_current_user settings tok session now = Raise MissingSubject.
Proof.
  intros Hdec Hsub. apply get_current_user_subject_error.
  unfold Security.token_subject. rewrite Hdec. simpl. by rewrite Hsub.
Qed.

End Resolution.

Lemma query_first_None (session : list User) (username : JVal) :
  Security.query_first session username = None ↔
  ∀ u, u ∈ session → VStr (user_name u) ≠ username.
Proof.
  unfold Security.query_first.
  induction session as [|v session IH]; simpl.
  - split; [intros _ u Hu; by apply not_elem_of_nil in Hu | done].
  - rewrite filter_cons. destruct (decide (VStr (user_name v) = username)) as [Heq|Hne].
    + simpl. split; [done |]. intros H. destruct (H v); [left | done].
    + rewrite IH. split.
      * intros H u Hu. apply elem_of_cons in Hu as [->|Hu]; [done | by apply H].
      * intros H u Hu. apply H. by right.
Qed.

Lemma query_first_Some (session : list User) (username : JVal) (u : User) :
  Security.query_first session username = Some u ↔
  ∃ before after, session = before ++ u :: after ∧
    VStr (user_name u) = username ∧
    ∀ v, v ∈ before → VStr (user_name v) ≠ username.
Proof.
  unfold Security.query_first.
  induction session as [|w session IH]; simpl.
  - split; [done |]. intros (before & after & H & _). by destruct before.
  - rewrite filter_cons. destruct (decide (VStr (user_name w) = username)) as [Heq|Hne].
    + simpl. split.
      * intros [= ->]. exists [], session. split_and!; [done | done |].
        intros v Hv. by apply not_elem_of_nil in Hv.
      * intros (before & after & H & Hu & Hbefore).
        destruct before as [|b before]; simpl in H.
        -- by injection H as -> _.
        -- injection H as -> _. destruct (Hbefore b); [left | done].
    + rewrite IH. split.
      * intros (before & after & -> & Hu & Hbefore).
        exists (w :: before), after. split_and!; [done | done |].
        intros v Hv. apply elem_of_cons in Hv as [->|Hv]; [done | by apply Hbefore].
      * intros (before & after & H & Hu & Hbefore).
        destruct before as [|b before]; simpl in H.
        -- injection H as -> _. done.
        -- injection H as -> ->. exists before, after. split_and!; [done | done |].
           intros v Hv. apply Hbefore. by right.
Qed.

(** C7, as stated, fails: a token issued for a tenth of a second is
    refused at the very instant of its issuance, and a token issued for
    one second at 1000.9 s is refused at 1001.0 s, a tenth of a second
    later: the expiry a token carries is cut down to whole seconds. *)
Lemma verify_issue_subsecond_counterexample :
  (token ← Security.create_access_token Sample.settings
             {[ "sub" := VStr "alice" ]} (Some 100000) 1000500000;
   Security.token_subject Sample.settings token 1000500000)
  = Raise InvalidToken ∧
  (token ← Security.create_access_token Sample.settings
             {[ "sub" := VStr "alice" ]} (Some 1000000) 1000900000;
   Security.token_subject Sample.settings token 1001000000)
  = Raise InvalidToken.
Proof. vm_compute. done. Qed.

(** C7, amended: a token issued for subject [s] with a positive ttl [t]
    and verified at a time from its issuance up to, and not including,
    the issue time plus [t] cut down to a whole second yields exactly the
    subject [s], and where the User Store has a record named [s],
    [get_current_user] returns that record; for a ttl of one second or
    more the instant of issuance is such a time. *)
Theorem verify_issue_roundtrip
    (settings : Settings) (s : string) (t now : Z) :
  0 < t →
  (∀ now', now ≤ now' → now' < timestamp (now + t) * 1000000 →
     (token ← Security.create_access_token settings
                {[ "sub" := VStr s ]} (Some t) now;
      Security.token_subject settings token now') = Ok (VStr s) ∧
     ∀ session u,
       Security.query_first session (VStr s) = Some u →
       (token ← Security.create_access_token settings
                  {[ "sub" := VStr s ]} (Some t) now;
        Security.get_current_user settings token session now') = Ok u ∧
       user_name u = s) ∧
  (1000000 ≤ t →
     (token ← Security.create_access_token settings
                {[ "sub" := VStr s ]} (Some t) now;
      Security.token_subject settings token now) = Ok (VStr s)).
Proof.
  intros Ht. rewrite create_access_token_eq. simpl.
  rewrite bool_decide_eq_false_2 by lia.
  set (token := Jwt.JWS _ _ _).
  assert (∀ now', now' < timestamp (now + t) * 1000000 →
            Security.token_subject settings token now' = Ok (VStr s))
    as Hsub.
  { intros now' Hlt. unfold Security.token_subject, token.
    rewrite (decode_signed _ _ _ (timestamp (now + t)));
      [| apply lookup_insert_eq | done].
    simpl. rewrite lookup_insert_ne by done. by rewrite lookup_singleton_eq. }
  split.
  - intros now' _ Hlt. split; [by apply Hsub |]. intros session u Hu.
    rewrite (get_current_user_resolved _ _ _ _ _ (Hsub now' Hlt)), Hu.
    split; [done |].
    apply query_first_Some in Hu as (_ & _ & _ & Hname & _).
    by injection Hname.
  - intros Hsec. apply Hsub. unfold timestamp.
    pose proof (Z.div_mod (now + t) 1000000 ltac:(lia)).
    pose proof (Z.mod_pos_bound (now + t) 1000000 ltac:(lia)). lia.
Qed.

Lemma verify_issue_roundtrip_witness :
  (token ← Security.create_access_token Sample.settings
             {[ "sub" := VStr "alice" ]} (Some 60000000) 1000000000;
   Security.token_subject Sample.settings token 1059999999)
  = Ok (VStr "alice").
Proof.
  apply (proj1 (verify_issue_roundtrip Sample.settings "alice" 60000000
                  1000000000 ltac:(lia))
           1059999999 ltac:(lia) ltac:(vm_compute; reflexivity)).
Defined.

(** C5, as stated, fails: a token with a valid signature that has expired
    and a malformed token are turned away with one and the same exception,
    so no diagnostic code tells the two apart. *)
Lemma expired_vs_invalid_counterexample :
  Jwt.decode (Sample.token_for "alice") "s3cr3t" ["HS256"] 1060000000
    = Raise (PyJWTError ExpiredSignatureError) ∧
  Jwt.decode (Jwt.Opaque "not.a.token") "s3cr3t" ["HS256"] 1060000000
    = Raise (PyJWTError DecodeError) ∧
  Security.get_current_user Sample.settings (Sample.token_for "alice")
    Sample.session 1060000000 =
  Security.get_current_user Sample.settings (Jwt.Opaque "not.a.token")
    Sample.session 1060000000.
Proof. vm_compute. done. Qed.

(** C5, amended: token verification in [get_current_user] fails with one
    denial, HTTP 403 with the detail "Token không hợp lệ", both when the
    signature verifies but the current time is at or past [exp] (PyJWT's
    [ExpiredSignatureError]) and when the encoding is malformed, the
    algorithm is not the configured one or the signature does not match;
    the caller cannot tell these cases apart. *)
Theorem token_failures_share_one_denial
    (settings : Settings) (session : list User) (now : Z) :
  (∀ payload exp, payload !! "exp" = Some (VInt exp) → exp * 1000000 ≤ now →
     Jwt.decode
       (Jwt.JWS (SECURITY_ALGORITHM settings) (SECRET_KEY settings) payload)
       (SECRET_KEY settings) [SECURITY_ALGORITHM settings] now
       = Raise (PyJWTError ExpiredSignatureError) ∧
     Security.get_current_user settings
       (Jwt.JWS (SECURITY_ALGORITHM settings) (SECRET_KEY settings) payload)
       session now = Raise InvalidToken) ∧
  (∀ raw,
     Security.get_current_user settings (Jwt.Opaque raw) session now
       = Raise InvalidToken) ∧
  (∀ alg key payload,
     alg ≠ SECURITY_ALGORITHM settings ∨ key ≠ SECRET_KEY settings →
     Security.get_current_user settings (Jwt.JWS alg key payload) session now
       = Raise InvalidToken).
Proof.
  split_and!.
  - intros payload exp Hexp Hle.
    assert (Jwt.decode
       (Jwt.JWS (SECURITY_ALGORITHM settings) (SECRET_KEY settings) payload)
       (SECRET_KEY settings) [SECURITY_ALGORITHM settings] now
       = Raise (PyJWTError ExpiredSignatureError)) as Hdec.
    { unfold Jwt.decode.
      rewrite bool_decide_eq_true_2 by apply list_elem_of_here.
      rewrite bool_decide_eq_true_2 by done. simpl. rewrite Hexp.
      by rewrite bool_decide_eq_true_2. }
    split; [done |].
    eapply get_current_user_subject_error, token_subject_decode_error, Hdec.
  - intros raw.
    by eapply get_current_user_subject_error, token_subject_decode_error.
  - intros alg key payload Hne.
    apply get_current_user_subject_error.
    destruct (decide (alg = SECURITY_ALGORITHM settings)) as [->|Halg].
    + destruct Hne as [Hne|Hne]; [done |].
      apply (token_subject_decode_error _ _ _ InvalidSignatureError).
      unfold Jwt.decode.
      rewrite bool_decide_eq_true_2 by apply list_elem_of_here.
      by rewrite bool_decide_eq_false_2.
    + apply (token_subject_decode_error _ _ _ InvalidAlgorithmError).
      unfold Jwt.decode. rewrite bool_decide_eq_false_2; [done |].
      intros Hin. apply list_elem_of_singleton in Hin. done.
Qed.

Lemma token_failures_share_one_denial_witness :
  Security.get_current_user Sample.settings
    (Jwt.JWS "HS256" "s3cr3t"
       (<["exp" := VInt 1060]> {[ "sub" := VStr "alice" ]}))
    Sample.session 1060000000 = Raise InvalidToken ∧
  Security.get_current_user Sample.settings
    (Jwt.JWS "HS256" "forged" {[ "sub" := VStr "alice" ]})
    Sample.session 1060000000 = Raise InvalidToken.
Proof.
  pose proof (token_failures_share_one_denial
                Sample.settings Sample.session 1060000000)
    as (Hexp & _ & Hsig).
  split.
  - apply (Hexp (<["exp" := VInt 1060]> {[ "sub" := VStr "alice" ]}) 1060);
      [reflexivity | lia].
  - apply Hsig. right. discriminate.
Defined.

(** C2, as stated, fails: the token of a locked account resolves to that
    account's principal, while the token of a subject without a record is
    turned away, so the two cases differ in what the caller receives. *)
Lemma disabled_user_counterexample :
  is_active Sample.bob = false ∧
  Security.get_current_user Sample.settings (Sample.token_for "bob")
    Sample.session 1001000000 = Ok Sample.bob ∧
  Security.get_current_user Sample.settings (Sample.token_for "ghost")
    Sample.session 1001000000 = Raise UnknownSubject.
Proof. vm_compute. done. Qed.

(** C2, amended: for every token whose signature and expiry verify and
    that names a subject, [get_current_user] fails with the 403 denial of
    an unknown subject exactly when the User Store holds no record with
    that user name; otherwise it returns the first record with that user
    name, whatever its status flag, a locked account like an active one. *)
Theorem get_current_user_by_name_only
    (settings : Settings) (tok : Jwt.Token) (session : list User) (now : Z)
    (username : JVal) :
  Security.token_subject settings tok now = Ok username →
  (Security.get_current_user settings tok session now = Raise UnknownSubject ↔
     ∀ u, u ∈ session → VStr (user_name u) ≠ username) ∧
  (∀ u, Security.get_current_user settings tok session now = Ok u ↔
     ∃ before after, session = before ++ u :: after ∧
       VStr (user_name u) = username ∧
       ∀ v, v ∈ before → VStr (user_name v) ≠ username).
Proof.
  intros Hsub. rewrite (get_current_user_resolved _ _ _ _ _ Hsub).
  split; [| intros u]; [rewrite <- query_first_None | rewrite <- query_first_Some];
    destruct (Security.query_first session username); split; congruence.
Qed.

Lemma get_current_user_by_name_only_witness :
  Security.get_current_user Sample.settings (Sample.token_for "bob")
    Sample.session 1001000000 = Ok Sample.bob ↔
  ∃ before after, Sample.session = before ++ Sample.bob :: after ∧
    VStr (user_name Sample.bob) = VStr "bob" ∧
    ∀ v, v ∈ before → VStr (user_name v) ≠ VStr "bob".
Proof.
  apply (get_current_user_by_name_only Sample.settings (Sample.token_for "bob")
           Sample.session 1001000000 (VStr "bob")).
  reflexivity.
Defined.

(** ** Properties of the password hasher *)

Lemma append_nil_l (s : string) : "" +:+ s = s.
Proof. done. Qed.

Lemma append_cons_l (c : ascii) (s1 s2 : string) :
  String c s1 +:+ s2 = String c (s1 +:+ s2).
Proof. done. Qed.

Lemma strip_prefix_app (prefix s : string) :
  strip_prefix prefix (prefix +:+ s) = Some s.
Proof.
  induction prefix as [|c prefix IH]; [done |].
  rewrite append_cons_l. simpl. by rewrite decide_True.
Qed.

Lemma strip_prefix_Some (prefix s tail : string) :
  strip_prefix prefix s = Some tail → s = prefix +:+ tail.
Proof.
  revert s. induction prefix as [|c prefix IH]; intros s; simpl.
  - by intros [= ->].
  - destruct s as [|d s]; [done |]. destruct (decide (c = d)) as [->|]; [| done].
    intros H. rewrite append_cons_l. f_equal. by apply IH.
Qed.

Lemma str_take_app (a b : string) :
  str_take (String.length a) (a +:+ b) = a.
Proof.
  induction a as [|c a IH]; simpl.
  - by destruct b.
  - by rewrite IH.
Qed.

Lemma str_drop_app (a b : string) :
  str_drop (String.length a) (a +:+ b) = b.
Proof.
  induction a as [|c a IH]; simpl; [by destruct b | done].
Qed.

(** What [identify] recognises: a string that starts with one of the
    bcrypt identifiers. *)
Lemma identify_true (h : string) :
  Passlib.identify h = true ↔
  ∃ i tail, i ∈ Passlib.ident_values ∧ h = i +:+ tail.
Proof.
  unfold Passlib.identify. rewrite bool_decide_eq_true.
  generalize Passlib.ident_values as idents.
  induction idents as [|j idents IH]; simpl.
  - split; [by intros [? ?] |]. intros (i & tail & Hi & _).
    by apply not_elem_of_nil in Hi.
  - destruct (strip_prefix j h) as [tail|] eqn:Hj.
    + split; [intros _ | by eauto].
      exists j, tail. split; [left | by apply strip_prefix_Some].
    + rewrite IH. split; intros (i & tail & Hi & ->).
      * exists i, tail. split; [by right | done].
      * exists i, tail. split; [| done].
        apply elem_of_cons in Hi as [->|Hi]; [| done].
        by rewrite strip_prefix_app in Hj.
Qed.

Lemma str_take_drop (n : nat) (s : string) :
  str_take n s +:+ str_drop n s = s.
Proof.
  revert s. induction n as [|n IH]; intros s; [by destruct s |].
  destruct s as [|c s]; [done |]. simpl. rewrite append_cons_l. by rewrite IH.
Qed.

Lemma parse_ident_Some idents h i tail :
  Passlib.parse_ident idents h = Some (i, tail) →
  i ∈ idents ∧ h = i +:+ tail.
Proof.
  induction idents as [|j idents IH]; simpl; [done |].
  destruct (strip_prefix j h) as [t|] eqn:Hj.
  - intros [= <- <-]. split; [left | by apply strip_prefix_Some].
  - intros H. destruct (IH H) as [Hi ->]. split; [by right | done].
Qed.

Lemma parse_ident_known i tail :
  i ∈ Passlib.ident_values →
  Passlib.parse_ident Passlib.ident_values (i +:+ tail) = Some (i, tail).
Proof.
  unfold Passlib.ident_values. intros Hi.
  repeat (apply elem_of_cons in Hi as [->|Hi]; [reflexivity |]).
  by apply not_elem_of_nil in Hi.
Qed.

Lemma valid_cost_length cost :
  Passlib.valid_cost cost = true → ∃ a b, cost = String a (String b "").
Proof. destruct cost as [|a [|b [|]]]; try done. eauto. Qed.

(** The parser accepts exactly the well-formed hash strings, and only
    ever raises [HashValueError]. *)
Lemma from_string_format i cost salt chk :
  i ∈ Passlib.ident_values → i ≠ "$2x$" →
  Passlib.valid_cost cost = true →
  Passlib.hash64_of_length 22 salt = true →
  Passlib.hash64_of_length 31 chk = true →
  Passlib.from_string (i +:+ cost +:+ "$" +:+ salt +:+ chk) =
  Ok {| Passlib.ident := i; Passlib.rounds := cost; Passlib.salt := salt;
        Passlib.checksum := chk |}.
Proof.
  intros Hi Hx Hcost Hsalt Hchk. unfold Passlib.from_string.
  rewrite parse_ident_known by done.
  destruct (valid_cost_length _ Hcost) as (a & b & ->).
  assert (String.length salt = 22%nat) as Hlen.
  { apply andb_prop in Hsalt as [H _]. by apply bool_decide_eq_true in H. }
  assert (str_take 22 (salt +:+ chk) = salt) as Htake
    by (rewrite <- Hlen; by rewrite str_take_app).
  assert (str_drop 22 (salt +:+ chk) = chk) as Hdrop
    by (rewrite <- Hlen; by rewrite str_drop_app).
  change (str_take 2 (String a (String b "") +:+ "$" +:+ salt +:+ chk))
    with (String a (String b "")).
  change (str_drop 2 (String a (String b "") +:+ "$" +:+ salt +:+ chk))
    with (String "$" (salt +:+ chk)).
  change (str_take 1 (String "$" (salt +:+ chk))) with "$".
  change (str_drop 1 (String "$" (salt +:+ chk))) with (salt +:+ chk).
  rewrite Htake, Hdrop, Hcost, Hsalt, Hchk.
  by rewrite !bool_decide_eq_true_2.
Qed.

Lemma from_string_Ok h r :
  Passlib.from_string h = Ok r →
  Passlib.well_formed h ∧
  h = Passlib.ident r +:+ Passlib.rounds r +:+ "$" +:+ Passlib.salt r
        +:+ Passlib.checksum r.
Proof.
  unfold Passlib.from_string.
  destruct (Passlib.parse_ident Passlib.ident_values h) as [[i tail]|] eqn:Hp;
    [| done].
  apply parse_ident_Some in Hp as [Hi ->].
  destruct (_ && _) eqn:Hall; [| done]. intros [= <-]. simpl.
  repeat (apply andb_prop in Hall as [Hall ?]).
  apply bool_decide_eq_true in Hall.
  assert (tail = str_take 2 tail +:+ "$"
                   +:+ str_take 22 (str_drop 1 (str_drop 2 tail))
                   +:+ str_drop 22 (str_drop 1 (str_drop 2 tail))) as Htail.
  { rewrite <- (str_take_drop 2 tail) at 1. f_equal.
    rewrite <- (str_take_drop 1 (str_drop 2 tail)) at 1.
    match goal with H : bool_decide (_ = "$") = true |- _ =>
      apply bool_decide_eq_true in H; rewrite H end.
    f_equal. by rewrite str_take_drop. }
  split.
  - exists i, (str_take 2 tail),
      (str_take 22 (str_drop 1 (str_drop 2 tail))),
      (str_drop 22 (str_drop 1 (str_drop 2 tail))).
    split_and!; try done. f_equal. exact Htail.
  - f_equal. exact Htail.
Qed.

Lemma from_string_Raise h e :
  Passlib.from_string h = Raise e → e = HashValueError.
Proof.
  unfold Passlib.from_string.
  destruct (Passlib.parse_ident _ _) as [[i tail]|]; [| by intros [= <-]].
  destruct (_ && _); [done | by intros [= <-]].
Qed.

Lemma well_formed_from_string h :
  Passlib.well_formed h → ∃ r, Passlib.from_string h = Ok r.
Proof.
  intros (i & cost & salt & chk & Hi & Hx & Hcost & Hsalt & Hchk & ->).
  eexists. by apply from_string_format.
Qed.

Lemma validate_secret_Ok secret :
  (String.length secret ≤ Passlib.max_password_size)%nat →
  Passlib.validate_secret secret = Ok tt.
Proof.
  intros H. unfold Passlib.validate_secret. by rewrite bool_decide_eq_true_2.
Qed.

Section HasherFacts.
Variable bcrypt : string → string → string → string → string.
Hypothesis bcrypt_shape :
  ∀ i r s x, Passlib.hash64_of_length 31 (bcrypt i r s x) = true.

(** Verification against a hash the hasher made. *)
Lemma verify_own_hash (new_salt p candidate h : string) :
  Passlib.hash64_of_length 22 new_salt = true →
  Passlib.hash bcrypt new_salt p = Ok h →
  Passlib.verify bcrypt candidate (Some h) =
  if bool_decide (String.length candidate ≤ Passlib.max_password_size)%nat
  then if Passlib.nul_free candidate
       then Ok (bool_decide (bcrypt "$2b$" "12" new_salt candidate
                             = bcrypt "$2b$" "12" new_salt p))
       else Raise PasswordValueError
  else Raise PasswordSizeError.
Proof.
  intros Hsalt Hh. unfold Passlib.hash, Passlib.validate_secret in Hh.
  destruct (bool_decide (String.length p ≤ _)%nat); [| done].
  simpl in Hh. unfold Passlib.calc_checksum in Hh.
  destruct (Passlib.nul_free p); [| done]. simpl in Hh. injection Hh as <-.
  unfold Passlib.verify.
  replace (Passlib.identify _) with true.
  2:{ symmetry. apply identify_true. exists "$2b$". eexists.
      split; [unfold Passlib.ident_values; repeat constructor | done]. }
  unfold Passlib.validate_secret.
  destruct (bool_decide (String.length candidate ≤ _)%nat); [| done].
  simpl. rewrite from_string_format; try done.
  - simpl. unfold Passlib.calc_checksum.
    by destruct (Passlib.nul_free candidate).
  - unfold Passlib.ident_values. repeat constructor.
Qed.

End HasherFacts.

(** C9, as stated, fails: a plaintext with a NUL byte is refused by the
    hasher, so there is no hash to verify it against. *)
Lemma verify_password_nul_counterexample :
  Security.get_password_hash Sample.bcrypt Sample.salt
    (String "a" (String "000" "b"))
  = Raise PasswordValueError ∧
  (h ← Security.get_password_hash Sample.bcrypt Sample.salt
         (String "a" (String "000" "b"));
   Security.verify_password Sample.bcrypt (String "a" (String "000" "b"))
     (Some h))
  ≠ Ok true.
Proof. vm_compute. split; [done | discriminate]. Qed.

(** C9, amended: for every plaintext password without a NUL byte and of
    at most 4096 bytes, [verify_password] of the password against its
    [get_password_hash] returns true; the salt drawn for the hash and the
    checksums bcrypt computes have the shape of the format. *)
Theorem verify_password_get_password_hash
    (bcrypt : string → string → string → string → string)
    (new_salt p : string) :
  (∀ i r s x, Passlib.hash64_of_length 31 (bcrypt i r s x) = true) →
  Passlib.hash64_of_length 22 new_salt = true →
  (String.length p ≤ Passlib.max_password_size)%nat →
  Passlib.nul_free p = true →
  (h ← Security.get_password_hash bcrypt new_salt p;
   Security.verify_password bcrypt p (Some h)) = Ok true.
Proof.
  intros Hbcrypt Hsalt Hsize Hnul.
  unfold Security.verify_password, Security.get_password_hash.
  assert (Passlib.hash bcrypt new_salt p =
          Ok ("$2b$" +:+ "12" +:+ "$" +:+ new_salt
                +:+ bcrypt "$2b$" "12" new_salt p)) as Hh.
  { unfold Passlib.hash, Passlib.calc_checksum.
    by rewrite validate_secret_Ok, Hnul. }
  rewrite Hh.
  transitivity
    (Passlib.verify bcrypt p
       (Some ("$2b$" +:+ "12" +:+ "$" +:+ new_salt
                +:+ bcrypt "$2b$" "12" new_salt p)));
    [reflexivity |].
  rewrite (verify_own_hash bcrypt Hbcrypt new_salt p p _ Hsalt Hh).
  rewrite bool_decide_eq_true_2 by done. rewrite Hnul.
  by rewrite bool_decide_eq_true_2.
Qed.

Lemma verify_password_get_password_hash_witness :
  (h ← Security.get_password_hash Sample.bcrypt Sample.salt "hunter2";
   Security.verify_password Sample.bcrypt "hunter2" (Some h))
  = Ok true.
Proof.
  apply (verify_password_get_password_hash Sample.bcrypt Sample.salt "hunter2").
  - intros i r s x. reflexivity.
  - reflexivity.
  - vm_compute. lia.
  - reflexivity.
Defined.

(** C6, as stated, fails: against a second argument that is no hash,
    [verify_password] raises instead of returning false. *)
Lemma verify_password_non_hash_counterexample :
  Security.verify_password Sample.bcrypt "hunter2" (Some "not-a-hash")
    = Raise UnknownHashError ∧
  Security.verify_password Sample.bcrypt "hunter2" (Some "not-a-hash")
    ≠ Ok false.
Proof. vm_compute. split; [done | discriminate]. Qed.

(** C6, amended: for every plaintext password, [verify_password] raises
    passlib's [UnknownHashError] (a [ValueError]) when the second argument
    is a string that starts with no bcrypt identifier; when it starts with
    one but is not a well-formed bcrypt hash, [verify_password] raises as
    well, the [ValueError] of the hash parser for every password within
    passlib's size limit and otherwise that error or [PasswordSizeError];
    in neither case does it return false. *)
Theorem verify_password_non_hash_raises
    (bcrypt : string → string → string → string → string)
    (password h : string) :
  (Passlib.identify h = false →
     Security.verify_password bcrypt password (Some h)
       = Raise UnknownHashError) ∧
  (Passlib.identify h = true → ¬ Passlib.well_formed h →
     (Security.verify_password bcrypt password (Some h)
        = Raise HashValueError ∨
      Security.verify_password bcrypt password (Some h)
        = Raise PasswordSizeError) ∧
     ((String.length password ≤ Passlib.max_password_size)%nat →
      Security.verify_password bcrypt password (Some h)
        = Raise HashValueError)).
Proof.
  unfold Security.verify_password, Passlib.verify. split.
  - by intros ->.
  - intros -> Hwf.
    assert (Passlib.from_string h = Raise HashValueError) as Hparse.
    { destruct (Passlib.from_string h) as [r|e] eqn:Hr.
      - destruct Hwf. by apply from_string_Ok in Hr as [? _].
      - by rewrite (from_string_Raise _ _ Hr). }
    rewrite Hparse. unfold Passlib.validate_secret.
    destruct (bool_decide _) eqn:Hsize; simpl.
    + split; [by left | done].
    + split; [by right |]. intros Hle. by apply bool_decide_eq_false in Hsize.
Qed.

Lemma verify_password_non_hash_raises_witness :
  Security.verify_password Sample.bcrypt "hunter2" (Some "not-a-hash")
    = Raise UnknownHashError ∧
  Security.verify_password Sample.bcrypt "hunter2"
    (Some "$2b$99$0123456789abcdefghijklabcdefghijklmnopqrstuvwxyzABCDE")
    = Raise HashValueError.
Proof.
  split.
  - apply (proj1 (verify_password_non_hash_raises
                    Sample.bcrypt "hunter2" "not-a-hash")).
    reflexivity.
  - apply (proj2 (verify_password_non_hash_raises Sample.bcrypt "hunter2"
             "$2b$99$0123456789abcdefghijklabcdefghijklmnopqrstuvwxyzABCDE")).
    + reflexivity.
    + intros [r Hr]%well_formed_from_string. vm_compute in Hr. discriminate.
    + vm_compute. lia.
Defined.

(** ** Properties of the error path of the route handlers *)

Section HandlerFacts.
Context {Query Params Page Data : Type}.

Lemma get_raised (params : Params) (get_all_user : ApiUser.outcome Query)
    (paginate : Query → Params → ApiUser.outcome Page) (e : ApiUser.Caught) :
  ApiUser.get_body params get_all_user paginate = ApiUser.Raised e →
  ApiUser.get params get_all_user paginate =
  {| ApiUser.printed := ["Error occurred: " +:+ ApiUser.format_exc e];
     ApiUser.response :=
       inr {| ApiUser.http_code := 400; ApiUser.code := "400";
              ApiUser.message :=
                ApiUser.str e +:+ ": " +:+ ApiUser.format_exc e |} |}.
Proof. intros H. unfold ApiUser.get. by rewrite H. Qed.

Lemma get_roles_of_user_raised (user_id : Z)
    (get_roles_by_user_id : Z → ApiUser.outcome Data) (e : ApiUser.Caught) :
  get_roles_by_user_id user_id = ApiUser.Raised e →
  ApiUser.get_roles_of_user user_id get_roles_by_user_id =
  {| ApiUser.printed := ["Error occurred: " +:+ ApiUser.format_exc e];
     ApiUser.response :=
       inr {| ApiUser.http_code := 400; ApiUser.code := "400";
              ApiUser.message :=
                ApiUser.str e +:+ ": " +:+ ApiUser.format_exc e |} |}.
Proof. intros H. unfold ApiUser.get_roles_of_user. by rewrite H. Qed.

End HandlerFacts.

(** C3, as stated, fails: when the service behind [get] or
    [get_roles_of_user] raises, the message handed to the caller contains
    the text of the exception and the stack trace, and it changes with the
    exception. *)
Lemma handler_error_message_counterexample :
  ApiUser.error_message Sample.get_service_down =
    Some "connection to server at 10.0.0.5 refused: Traceback (most recent call last): File /app/services/user_service.py, line 31, in get_all_user" ∧
  ApiUser.error_message Sample.roles_service_down =
    ApiUser.error_message Sample.get_service_down ∧
  ApiUser.str_contains (ApiUser.str Sample.db_down)
    (default "" (ApiUser.error_message Sample.get_service_down)) = true ∧
  ApiUser.str_contains (ApiUser.format_exc Sample.db_down)
    (default "" (ApiUser.error_message Sample.get_service_down)) = true ∧
  ApiUser.error_message Sample.get_paginate_timeout ≠
    ApiUser.error_message Sample.get_service_down.
Proof. vm_compute. split_and!; (done || discriminate). Qed.

(** C3, amended: for every request to [get] or [get_roles_of_user] whose
    handler body raises an exception [e], the [CustomException] handed to
    the error envelope has the fixed HTTP status 400 and the fixed code
    "400", while its message is no fixed denial message: it starts with
    the text of the exception, [str(e)]. *)
Theorem handler_error_carries_exception_text
    {Query Params Page Data : Type} (e : ApiUser.Caught) :
  (∀ (params : Params) (get_all_user : ApiUser.outcome Query)
     (paginate : Query → Params → ApiUser.outcome Page),
     get_all_user = ApiUser.Raised e ∨
     (∃ q, get_all_user = ApiUser.Return q ∧
           paginate q params = ApiUser.Raised e) →
     ∃ rest,
       ApiUser.response (ApiUser.get params get_all_user paginate) =
       inr {| ApiUser.http_code := 400; ApiUser.code := "400";
              ApiUser.message := ApiUser.str e +:+ rest |}) ∧
  (∀ (user_id : Z) (get_roles_by_user_id : Z → ApiUser.outcome Data),
     get_roles_by_user_id user_id = ApiUser.Raised e →
     ∃ rest,
       ApiUser.response
         (ApiUser.get_roles_of_user user_id get_roles_by_user_id) =
       inr {| ApiUser.http_code := 400; ApiUser.code := "400";
              ApiUser.message := ApiUser.str e +:+ rest |}).
Proof.
  split.
  - intros params get_all_user paginate H.
    exists (": " +:+ ApiUser.format_exc e). rewrite (get_raised _ _ _ e); [done |].
    unfold ApiUser.get_body. destruct H as [-> | (q & -> & Hq)]; done.
  - intros user_id get_roles H.
    exists (": " +:+ ApiUser.format_exc e).
    by rewrite (get_roles_of_user_raised _ _ e).
Qed.

Lemma handler_error_carries_exception_text_witness :
  ∃ rest,
    ApiUser.response Sample.get_paginate_timeout =
    inr {| ApiUser.http_code := 400; ApiUser.code := "400";
           ApiUser.message := ApiUser.str Sample.timeout +:+ rest |}.
Proof.
  apply (proj1 (handler_error_carries_exception_text
                  (Query := unit) (Params := unit) (Page := unit)
                  (Data := unit) Sample.timeout)).
  right. exists tt. split; reflexivity.
Defined.

(** * Further properties of the modelled code *)

(** ** Issued tokens *)

Section TokenFacts.
Variable settings : Settings.

(** What [jwt.decode] accepted carries the configured signature. *)
Lemma decode_Ok tok key alg now (payload : gmap string JVal) :
  Jwt.decode tok key [alg] now = Ok payload →
  tok = Jwt.JWS alg key payload.
Proof.
  unfold Jwt.decode. destruct tok as [a k pl|raw]; [| done].
  destruct (bool_decide (a ∈ [alg])) eqn:Ha; [| done].
  destruct (bool_decide (k = key)) eqn:Hk; [| done]. simpl.
  apply bool_decide_eq_true in Ha, Hk.
  apply list_elem_of_singleton in Ha. subst a k.
  destruct (pl !! "exp") as [[| |exp]|] eqn:Hexp; try done.
  - destruct (bool_decide _); [done | by intros [= ->]].
  - by intros [= ->].
Qed.

(** [jwt.decode] ends with its claims or with a [PyJWTError]. *)
Lemma decode_Raise tok key algs now e :
  Jwt.decode tok key algs now = Raise e → ∃ k, e = PyJWTError k.
Proof.
  unfold Jwt.decode. destruct tok as [a k pl|raw]; [| intros [= <-]; eauto].
  destruct (negb _); [intros [= <-]; eauto |].
  destruct (negb _); [intros [= <-]; eauto |].
  destruct (pl !! "exp") as [[| |exp]|]; try (intros [= <-]; eauto).
  destruct (bool_decide _); [intros [= <-]; eauto | done].
Qed.

Lemma token_subject_decoded tok now (payload : gmap string JVal) :
  Jwt.decode tok (SECRET_KEY settings) [SECURITY_ALGORITHM settings] now
    = Ok payload →
  Security.token_subject settings tok now =
  match payload !! "sub" with
  | None | Some VNone => Raise MissingSubject
  | Some username => Ok username
  end.
Proof.
  intros H. unfold Security.token_subject. rewrite H. simpl.
  by destruct (payload !! "sub") as [[]|].
Qed.


End TokenFacts.

(** X1: a token issued by [create_access_token] for the subject [s] at
    time [now] is accepted at time [now'] exactly while [now'] is before
    the expiry the token carries, which is [now] plus the ttl in force
    (the given [expires_delta] unless absent or zero, else the configured
    default lifetime) cut down to a whole second; from that instant on it
    is refused with the 403 invalid-token denial.  A negative
    [expires_delta] thus gives a token that is never accepted after its
    issuance. *)
Theorem issued_token_validity_window
    (settings : Settings) (s : string) (expires_delta : option Z)
    (now now' : Z) :
  let ttl :=
    match expires_delta with
    | None => timedelta_seconds (ACCESS_TOKEN_EXPIRE_SECONDS settings)
    | Some d =>
        if bool_decide (d = 0)
        then timedelta_seconds (ACCESS_TOKEN_EXPIRE_SECONDS settings)
        else d
    end in
  (token ← Security.create_access_token settings {[ "sub" := VStr s ]}
             expires_delta now;
   Security.token_subject settings token now') =
  if bool_decide (now' < timestamp (now + ttl) * 1000000)
  then Ok (VStr s)
  else Raise InvalidToken.
Proof.
  intros ttl. rewrite create_access_token_eq.
  replace (Security.or_default expires_delta _) with ttl by done.
  set (exp := timestamp (now + ttl)).
  change (Security.token_subject settings
            (Jwt.JWS (SECURITY_ALGORITHM settings) (SECRET_KEY settings)
               (<["exp" := VInt exp]> {[ "sub" := VStr s ]})) now' =
          if bool_decide (now' < exp * 1000000) then Ok (VStr s)
          else Raise InvalidToken).
  destruct (bool_decide (now' < exp * 1000000)) eqn:Hlt.
  - apply bool_decide_eq_true in Hlt.
    rewrite (token_subject_decoded _ _ _
               (<["exp" := VInt exp]> {[ "sub" := VStr s ]})).
    + rewrite lookup_insert_ne by done. by rewrite lookup_singleton_eq.
    + apply (decode_signed _ _ _ exp); [apply lookup_insert_eq | done].
  - apply bool_decide_eq_false in Hlt.
    apply (token_subject_decode_error _ _ _ ExpiredSignatureError).
    apply (decode_expired _ _ _ exp); [apply lookup_insert_eq | lia].
Qed.

(** X2: whatever [exp] the caller put into the JSON claims,
    [create_access_token] issues a token, the [exp] this token carries is
    the computed expiry, and every other claim of the data is carried by
    the token unchanged. *)
Theorem create_access_token_overrides_exp
    (settings : Settings) (data : gmap string JVal) (v : JVal)
    (expires_delta : option Z) (now : Z) :
  let ttl :=
    match expires_delta with
    | None => timedelta_seconds (ACCESS_TOKEN_EXPIRE_SECONDS settings)
    | Some d =>
        if bool_decide (d = 0)
        then timedelta_seconds (ACCESS_TOKEN_EXPIRE_SECONDS settings)
        else d
    end in
  ∃ token,
    Security.create_access_token settings (<["exp" := v]> data)
      expires_delta now = Ok token ∧
    Jwt.claim token "exp" = Some (VInt (timestamp (now + ttl))) ∧
    ∀ name, name ≠ "exp" → Jwt.claim token name = data !! name.
Proof.
  intros ttl. rewrite create_access_token_eq.
  replace (Security.or_default expires_delta _) with ttl by done.
  eexists. split; [done |]. simpl. split.
  - apply lookup_insert_eq.
  - intros name Hname. by rewrite !lookup_insert_ne.
Qed.

Lemma create_access_token_overrides_exp_witness :
  ∃ token,
    Security.create_access_token Sample.settings
      (<["exp" := VInt 7]> {[ "sub" := VStr "alice" ]}) None 1000000000
    = Ok token ∧
    Jwt.claim token "sub" = Some (VStr "alice").
Proof.
  destruct (create_access_token_overrides_exp Sample.settings
              {[ "sub" := VStr "alice" ]} (VInt 7) None 1000000000)
    as (token & Htoken & _ & Hother).
  exists token. split; [exact Htoken |].
  rewrite (Hother "sub"); [reflexivity | discriminate].
Defined.

(** ** Identity resolution *)

(** X3: [get_current_user] returns a user only when [jwt.decode] accepted
    the token under the configured secret and algorithm and returned
    claims whose [sub] is the user name of the returned user, and that
    user is a row of the user table. *)
Theorem get_current_user_sound
    (settings : Settings) (tok : Jwt.Token) (session : list User) (now : Z)
    (u : User) :
  Security.get_current_user settings tok session now = Ok u →
  ∃ payload,
    Jwt.decode tok (SECRET_KEY settings) [SECURITY_ALGORITHM settings] now
      = Ok payload ∧
    payload !! "sub" = Some (VStr (user_name u)) ∧
    u ∈ session.
Proof.
  intros H.
  destruct (Jwt.decode tok (SECRET_KEY settings) [SECURITY_ALGORITHM settings]
              now) as [payload|e] eqn:Hdec.
  - pose proof (token_subject_decoded settings _ _ _ Hdec) as Hsub.
    exists payload. split; [done |].
    destruct (payload !! "sub") as [username|] eqn:Hname.
    + assert (Security.token_subject settings tok now = Ok username) as Hok.
      { rewrite Hsub. destruct username; [| done..].
        rewrite (get_current_user_subject_error _ _ _ _ _ Hsub) in H. done. }
      rewrite (get_current_user_resolved _ _ _ _ _ Hok) in H.
      destruct (Security.query_first session username) as [w|] eqn:Hq; [| done].
      injection H as ->.
      apply query_first_Some in Hq as (before & after & -> & <- & _).
      split; [done |]. apply elem_of_app. right. left.
    + rewrite (get_current_user_subject_error _ _ _ _ _ Hsub) in H. done.
  - destruct (decode_Raise _ _ _ _ _ Hdec) as [k ->].
    rewrite (get_current_user_subject_error settings _ _ _ InvalidToken) in H;
      [done |].
    by eapply token_subject_decode_error.
Qed.

Lemma get_current_user_sound_witness :
  ∃ payload,
    Jwt.decode (Sample.token_for "alice") "s3cr3t" ["HS256"] 1001000000
      = Ok payload ∧
    payload !! "sub" = Some (VStr "alice") ∧
    Sample.alice ∈ Sample.session.
Proof.
  apply (get_current_user_sound Sample.settings (Sample.token_for "alice")
           Sample.session 1001000000 Sample.alice).
  reflexivity.
Defined.



(** X5: a token that decodes but whose [sub] claim is absent or [None] is
    answered with the 401 exception raised inside the [try] statement,
    which the [except] clause does not replace by the 403 one; the user
    table is not consulted. *)
Theorem token_without_subject_unauthorized
    (settings : Settings) (tok : Jwt.Token) (session : list User) (now : Z)
    (payload : gmap string JVal) :
  Jwt.decode tok (SECRET_KEY settings) [SECURITY_ALGORITHM settings] now
    = Ok payload →
  payload !! "sub" = None ∨ payload !! "sub" = Some VNone →
  Security.get_current_user settings tok session now = Raise MissingSubject.
Proof.
  intros Hdec Hsub. apply get_current_user_subject_error.
  rewrite (token_subject_decoded _ _ _ _ Hdec).
  by destruct Hsub as [-> | ->].
Qed.

Lemma token_without_subject_unauthorized_witness :
  Security.get_current_user Sample.settings
    (Jwt.JWS "HS256" "s3cr3t" {[ "sub" := VNone ]}) Sample.session 1001000000
  = Raise MissingSubject.
Proof.
  apply (token_without_subject_unauthorized Sample.settings _ Sample.session
           1001000000 {[ "sub" := VNone ]}).
  - reflexivity.
  - right. reflexivity.
Defined.

(** ** The role gate behind its dependency *)

Lemma check_permissions_Ok required repo u v :
  Security.check_permissions required repo u = Ok v ↔
  v = u ∧ ∃ role, role ∈ repo (id u) ∧ role ∈ required.
Proof.
  rewrite <- py_any_in. unfold Security.check_permissions.
  destruct (Security.py_any _ _); simpl; split.
  - by intros [= ->].
  - by intros [-> _].
  - done.
  - by intros [_ ?].
Qed.

(** X6: a request passes the dependency [check_permissions(required)]
    with the user [u] exactly when [get_current_user] resolves its token
    to [u] and the repository reports for [u] a role that is in the
    required list; the user handed on is the resolved one. *)
Theorem permission_checker_iff
    (settings : Settings) (required : list string) (tok : Jwt.Token)
    (session : list User) (repo : Z → list string) (now : Z) (u : User) :
  Pipeline.permission_checker settings required tok session repo now = Ok u ↔
  Security.get_current_user settings tok session now = Ok u ∧
  ∃ role, role ∈ repo (id u) ∧ role ∈ required.
Proof.
  unfold Pipeline.permission_checker.
  destruct (Security.get_current_user settings tok session now) as [w|e];
    simpl.
  - rewrite check_permissions_Ok. split.
    + by intros [-> ?].
    + by intros [[= ->] ?].
  - split; [done | by intros [? _]].
Qed.

(** X7: end to end, a token issued for the subject [s] with a positive
    ttl and presented from its issuance up to, and not including, the
    issue time plus the ttl cut down to a whole second, by a user whose
    record is the first one named [s] and to whom the repository gives
    one of the required roles, passes the gate, and the user handed to
    the route is that record. *)
Theorem issue_resolve_authorize
    (settings : Settings) (s : string) (t now now' : Z)
    (session : list User) (repo : Z → list string) (required : list string)
    (u : User) (role : string) :
  0 < t → now ≤ now' → now' < timestamp (now + t) * 1000000 →
  Security.query_first session (VStr s) = Some u →
  role ∈ repo (id u) → role ∈ required →
  (token ← Security.create_access_token settings {[ "sub" := VStr s ]}
             (Some t) now;
   Pipeline.permission_checker settings required token session repo now')
  = Ok u ∧
  user_name u = s.
Proof.
  intros Ht _ Hnow Hu Hrole Hreq.
  rewrite create_access_token_eq. simpl.
  rewrite (bool_decide_eq_false_2 (t = 0)) by lia.
  set (token := Jwt.JWS _ _ _).
  assert (Security.token_subject settings token now' = Ok (VStr s)) as Hsub.
  { rewrite (token_subject_decoded _ _ _
               (<["exp" := VInt (timestamp (now + t))]>
                  {[ "sub" := VStr s ]})).
    - rewrite lookup_insert_ne by done. by rewrite lookup_singleton_eq.
    - apply (decode_signed _ _ _ (timestamp (now + t)));
        [apply lookup_insert_eq | done]. }
  split.
  - unfold Pipeline.permission_checker.
    rewrite (get_current_user_resolved _ _ _ _ _ Hsub), Hu. simpl.
    apply check_permissions_Ok. split; [done | by exists role].
  - apply query_first_Some in Hu as (_ & _ & _ & Hname & _). by injection Hname.
Qed.

Lemma issue_resolve_authorize_witness :
  (token ← Security.create_access_token Sample.settings
             {[ "sub" := VStr "alice" ]} (Some 60000000) 1000000000;
   Pipeline.permission_checker Sample.settings ["ADMIN"] token
     Sample.session Sample.roles 1030000000)
  = Ok Sample.alice ∧
  user_name Sample.alice = "alice".
Proof.
  apply (issue_resolve_authorize Sample.settings "alice" 60000000 1000000000
           1030000000 Sample.session Sample.roles ["ADMIN"] Sample.alice
           "ADMIN").
  - lia.
  - lia.
  - vm_compute. reflexivity.
  - reflexivity.
  - vm_compute. left.
  - left.
Defined.



(** X9: the gate looks at the two role lists as sets and is monotone in
    both: a user who passes keeps passing when roles are added to the
    user or to the required list, whatever the order and the repetitions
    in the lists. *)
Theorem check_permissions_monotone
    (required required' : list string) (repo repo' : Z → list string)
    (u : User) :
  (∀ role, role ∈ required → role ∈ required') →
  (∀ role, role ∈ repo (id u) → role ∈ repo' (id u)) →
  Security.check_permissions required repo u = Ok u →
  Security.check_permissions required' repo' u = Ok u.
Proof.
  intros Hreq Hrepo H. apply check_permissions_Ok.
  apply check_permissions_Ok in H as (_ & role & H1 & H2).
  split; [done |]. exists role. split; [by apply Hrepo | by apply Hreq].
Qed.

Lemma check_permissions_monotone_witness :
  Security.check_permissions ["EDITOR"; "ADMIN"; "EDITOR"] Sample.roles
    Sample.alice = Ok Sample.alice.
Proof.
  apply (check_permissions_monotone ["ADMIN"] ["EDITOR"; "ADMIN"; "EDITOR"]
           Sample.roles Sample.roles Sample.alice).
  - intros role Hrole. apply list_elem_of_singleton in Hrole as ->.
    right. left.
  - done.
  - reflexivity.
Defined.

(** ** The password hasher, on hashes of its own *)

(** X10: against a hash made by [get_password_hash], [verify_password]
    raises only for a candidate password that passlib refuses as such,
    one longer than 4096 bytes or with a NUL byte; for every other
    candidate it answers whether the checksum of the candidate under the
    salt of the hash is the checksum stored in it. *)
Theorem verify_password_against_own_hash
    (bcrypt : string → string → string → string → string)
    (new_salt p candidate h : string) :
  (∀ i r s x, Passlib.hash64_of_length 31 (bcrypt i r s x) = true) →
  Passlib.hash64_of_length 22 new_salt = true →
  Security.get_password_hash bcrypt new_salt p = Ok h →
  Security.verify_password bcrypt candidate (Some h) =
  if bool_decide (String.length candidate ≤ Passlib.max_password_size)%nat
  then if Passlib.nul_free candidate
       then Ok (bool_decide (bcrypt "$2b$" "12" new_salt candidate
                             = bcrypt "$2b$" "12" new_salt p))
       else Raise PasswordValueError
  else Raise PasswordSizeError.
Proof.
  intros Hbcrypt Hsalt Hh.
  by apply (verify_own_hash bcrypt Hbcrypt new_salt p candidate h).
Qed.

Lemma verify_password_against_own_hash_witness :
  Security.verify_password Sample2.bcrypt "letmein"
    (Some "$2b$12$0123456789abcdefghijklabcdefghijklmnopqrstuvwxyzABCDE")
  = Ok false.
Proof.
  apply (verify_password_against_own_hash Sample2.bcrypt Sample.salt
           "hunter2" "letmein"
           "$2b$12$0123456789abcdefghijklabcdefghijklmnopqrstuvwxyzABCDE").
  - intros i r s x. unfold Sample2.bcrypt. by destruct (bool_decide _).
  - reflexivity.
  - reflexivity.
Defined.

(** ** The other route handlers *)

Section RouteFacts.
Import UserRoutes.
Context {Data UserRequestUpdate UserRegisterRequest : Type}.

Lemma wraps_get_detail id (service : Z → called Data) :
  wraps_service_error (get_detail id service) (service id).
Proof.
  unfold wraps_service_error, raised_custom, get_detail.
  destruct (service id) as [d|e]; [done |].
  destruct (isinstance_CustomException e); simpl; [| done].
  intros exc [= <-]. eauto.
Qed.

Lemma wraps_assign_roles_to_user user_id role_ids
    (service : Z → list Z → called Data) :
  wraps_service_error (assign_roles_to_user user_id role_ids service)
    (service user_id role_ids).
Proof.
  unfold wraps_service_error, raised_custom, assign_roles_to_user.
  destruct (service user_id role_ids) as [d|e]; [done |].
  destruct (isinstance_CustomException e); simpl; [| done].
  intros exc [= <-]. eauto.
Qed.

Lemma wraps_remove_role_from_user user_id role_id
    (service : Z → Z → called Data) :
  wraps_service_error (remove_role_from_user user_id role_id service)
    (service user_id role_id).
Proof.
  unfold wraps_service_error, raised_custom, remove_role_from_user.
  destruct (service user_id role_id) as [d|e]; [done |].
  destruct (isinstance_HTTPException e); simpl; [done |].
  intros exc [= <-]. eauto.
Qed.

Lemma wraps_change_status user_id (service : Z → called Data) :
  wraps_service_error (change_status user_id service) (service user_id).
Proof.
  unfold wraps_service_error, raised_custom, change_status.
  destruct (service user_id) as [d|e]; [done |].
  destruct (isinstance_HTTPException e); simpl; [done |].
  intros exc [= <-]. eauto.
Qed.

Lemma wraps_delete_user user_id (service : Z → called Data) :
  wraps_service_error (delete_user user_id service) (service user_id).
Proof.
  unfold wraps_service_error, raised_custom, delete_user.
  destruct (service user_id) as [d|e]; [done |].
  destruct (isinstance_HTTPException e); simpl; [done |].
  intros exc [= <-]. eauto.
Qed.

Lemma wraps_update_user id (data : UserRequestUpdate)
    (service : Z → UserRequestUpdate → called Data) :
  wraps_service_error (update_user id data service) (service id data).
Proof.
  unfold wraps_service_error, raised_custom, update_user.
  destruct (service id data) as [d|e]; [done |]. simpl.
  intros exc [= <-]. eauto.
Qed.

Lemma wraps_create_user (user_data : UserRegisterRequest)
    (service : UserRegisterRequest → called Data) :
  wraps_service_error (create_user user_data service) (service user_data).
Proof.
  unfold wraps_service_error, raised_custom, create_user.
  destruct (service user_data) as [d|e]; [done |]. simpl.
  intros exc [= <-]. eauto.
Qed.

End RouteFacts.

(** X11: in the seven handlers [get_detail], [remove_role_from_user],
    [change_status], [update_user], [delete_user], [create_user] and
    [assign_roles_to_user], a [CustomException] built by the handler
    always has status 400 and code "400" and, as its message, exactly the
    text [str(e)] of the exception the service raised: the stack trace,
    where it is taken, is printed and never put into the message. *)
Theorem handlers_wrap_with_exception_text_only
    {Data UserRequestUpdate UserRegisterRequest : Type}
    (user_id role_id : Z) (role_ids : list Z) (data : UserRequestUpdate)
    (user_data : UserRegisterRequest)
    (by_id : Z → UserRoutes.called Data)
    (by_ids : Z → Z → UserRoutes.called Data)
    (by_list : Z → list Z → UserRoutes.called Data)
    (by_update : Z → UserRequestUpdate → UserRoutes.called Data)
    (by_register : UserRegisterRequest → UserRoutes.called Data) :
  UserRoutes.wraps_service_error
    (UserRoutes.get_detail user_id by_id) (by_id user_id) ∧
  UserRoutes.wraps_service_error
    (UserRoutes.remove_role_from_user user_id role_id by_ids)
    (by_ids user_id role_id) ∧
  UserRoutes.wraps_service_error
    (UserRoutes.change_status user_id by_id) (by_id user_id) ∧
  UserRoutes.wraps_service_error
    (UserRoutes.update_user user_id data by_update) (by_update user_id data) ∧
  UserRoutes.wraps_service_error
    (UserRoutes.delete_user user_id by_id) (by_id user_id) ∧
  UserRoutes.wraps_service_error
    (UserRoutes.create_user user_data by_register) (by_register user_data) ∧
  UserRoutes.wraps_service_error
    (UserRoutes.assign_roles_to_user user_id role_ids by_list)
    (by_list user_id role_ids).
Proof.
  split_and!.
  - apply wraps_get_detail.
  - apply wraps_remove_role_from_user.
  - apply wraps_change_status.
  - apply wraps_update_user.
  - apply wraps_delete_user.
  - apply wraps_create_user.
  - apply wraps_assign_roles_to_user.
Qed.

Lemma handlers_wrap_with_exception_text_only_witness :
  ∃ e,
    (UserRoutes.Raises Sample2.value_error : UserRoutes.called unit)
      = UserRoutes.Raises e ∧
    UserRoutes.bad_request "invalid literal for int()"
      = UserRoutes.bad_request (ApiUser.str (UserRoutes.seen e)).
Proof.
  pose proof (handlers_wrap_with_exception_text_only
                (Data := unit) (UserRequestUpdate := unit)
                (UserRegisterRequest := unit) 7 3 [] tt tt
                (λ _, UserRoutes.Raises Sample2.value_error)
                (λ _ _, UserRoutes.Raises Sample2.value_error)
                (λ _ _, UserRoutes.Raises Sample2.value_error)
                (λ _ _, UserRoutes.Raises Sample2.value_error)
                (λ _, UserRoutes.Raises Sample2.value_error))
    as (_ & _ & _ & _ & Hdelete & _).
  apply Hdelete. reflexivity.
Defined.

(** X12: when the service raises an [HTTPException], the handlers
    [remove_role_from_user], [change_status] and [delete_user] let that
    very exception through and print nothing, while [update_user] and
    [create_user] replace it by a [CustomException] of status 400, so the
    status the service chose is lost there. *)
Theorem service_http_exception_fate
    {Data UserRequestUpdate UserRegisterRequest : Type}
    (e : UserRoutes.Thrown) :
  UserRoutes.isinstance_HTTPException e = true →
  (∀ user_id role_id (service : Z → Z → UserRoutes.called Data),
     service user_id role_id = UserRoutes.Raises e →
     UserRoutes.remove_role_from_user user_id role_id service =
     {| UserRoutes.printed := [];
        UserRoutes.outcome := UserRoutes.Reraise e |}) ∧
  (∀ user_id (service : Z → UserRoutes.called Data),
     service user_id = UserRoutes.Raises e →
     UserRoutes.change_status user_id service =
     {| UserRoutes.printed := [];
        UserRoutes.outcome := UserRoutes.Reraise e |} ∧
     UserRoutes.delete_user user_id service =
     {| UserRoutes.printed := [];
        UserRoutes.outcome := UserRoutes.Reraise e |}) ∧
  (∀ id (data : UserRequestUpdate)
     (service : Z → UserRequestUpdate → UserRoutes.called Data),
     service id data = UserRoutes.Raises e →
     UserRoutes.outcome (UserRoutes.update_user id data service) =
     UserRoutes.RaiseCustom
       (UserRoutes.bad_request (ApiUser.str (UserRoutes.seen e)))) ∧
  (∀ (user_data : UserRegisterRequest)
     (service : UserRegisterRequest → UserRoutes.called Data),
     service user_data = UserRoutes.Raises e →
     UserRoutes.outcome (UserRoutes.create_user user_data service) =
     UserRoutes.RaiseCustom
       (UserRoutes.bad_request (ApiUser.str (UserRoutes.seen e)))).
Proof.
  intros He. split_and!.
  - intros user_id role_id service H.
    unfold UserRoutes.remove_role_from_user. by rewrite H, He.
  - intros user_id service H.
    unfold UserRoutes.change_status, UserRoutes.delete_user.
    by rewrite H, He.
  - intros id data service H. unfold UserRoutes.update_user. by rewrite H.
  - intros user_data service H. unfold UserRoutes.create_user. by rewrite H.
Qed.

Lemma service_http_exception_fate_witness :
  UserRoutes.change_status 7 (λ _, UserRoutes.Raises Sample2.not_found
                                     : UserRoutes.called unit) =
  {| UserRoutes.printed := [];
     UserRoutes.outcome := UserRoutes.Reraise Sample2.not_found |} ∧
  UserRoutes.outcome
    (UserRoutes.update_user 7 tt
       (λ _ _, UserRoutes.Raises Sample2.not_found
                 : UserRoutes.called unit)) =
  UserRoutes.RaiseCustom (UserRoutes.bad_request "404: User not found").
Proof.
  pose proof (service_http_exception_fate
                (Data := unit) (UserRequestUpdate := unit)
                (UserRegisterRequest := unit) Sample2.not_found eq_refl)
    as (_ & Hstatus & Hupdate & _).
  split.
  - apply (Hstatus 7 (λ _, UserRoutes.Raises Sample2.not_found)).
    reflexivity.
  - apply (Hupdate 7 tt (λ _ _, UserRoutes.Raises Sample2.not_found)).
    reflexivity.
Defined.

(** X13: [get_detail] and [assign_roles_to_user] catch [CustomException]
    only: any other exception of the service, an [HTTPException] or a
    database error alike, leaves the handler as it was raised, neither
    wrapped nor printed. *)
Theorem only_custom_exceptions_are_caught
    {Data : Type} (e : UserRoutes.Thrown) :
  UserRoutes.isinstance_CustomException e = false →
  (∀ id (service : Z → UserRoutes.called Data),
     service id = UserRoutes.Raises e →
     UserRoutes.get_detail id service =
     {| UserRoutes.printed := [];
        UserRoutes.outcome := UserRoutes.Reraise e |}) ∧
  (∀ user_id role_ids (service : Z → list Z → UserRoutes.called Data),
     service user_id role_ids = UserRoutes.Raises e →
     UserRoutes.assign_roles_to_user user_id role_ids service =
     {| UserRoutes.printed := [];
        UserRoutes.outcome := UserRoutes.Reraise e |}).
Proof.
  intros He. split.
  - intros id service H. unfold UserRoutes.get_detail. by rewrite H, He.
  - intros user_id role_ids service H.
    unfold UserRoutes.assign_roles_to_user. by rewrite H, He.
Qed.

Lemma only_custom_exceptions_are_caught_witness :
  UserRoutes.get_detail 7 (λ _, UserRoutes.Raises Sample2.value_error
                                  : UserRoutes.called unit) =
  {| UserRoutes.printed := [];
     UserRoutes.outcome := UserRoutes.Reraise Sample2.value_error |}.
Proof.
  apply (proj1 (only_custom_exceptions_are_caught
                  (Data := unit) Sample2.value_error eq_refl)
           7 (λ _, UserRoutes.Raises Sample2.value_error)).
  reflexivity.
Defined.

(** X14: when the service returns, each of the seven handlers prints
    nothing and responds with the data of the service unchanged, under
    the code "200", or "201" for [create_user] and
    [assign_roles_to_user]. *)
Theorem handlers_pass_service_data
    {Data UserRequestUpdate UserRegisterRequest : Type} (d : Data) :
  (∀ id (service : Z → UserRoutes.called Data),
     service id = UserRoutes.Returns d →
     UserRoutes.responds_with (UserRoutes.get_detail id service) "200" d ∧
     UserRoutes.responds_with (UserRoutes.change_status id service) "200" d ∧
     UserRoutes.responds_with (UserRoutes.delete_user id service) "200" d) ∧
  (∀ user_id role_id (service : Z → Z → UserRoutes.called Data),
     service user_id role_id = UserRoutes.Returns d →
     UserRoutes.responds_with
       (UserRoutes.remove_role_from_user user_id role_id service) "200" d) ∧
  (∀ id (data : UserRequestUpdate)
     (service : Z → UserRequestUpdate → UserRoutes.called Data),
     service id data = UserRoutes.Returns d →
     UserRoutes.responds_with
       (UserRoutes.update_user id data service) "200" d) ∧
  (∀ (user_data : UserRegisterRequest)
     (service : UserRegisterRequest → UserRoutes.called Data),
     service user_data = UserRoutes.Returns d →
     UserRoutes.responds_with
       (UserRoutes.create_user user_data service) "201" d) ∧
  (∀ user_id role_ids (service : Z → list Z → UserRoutes.called Data),
     service user_id role_ids = UserRoutes.Returns d →
     UserRoutes.responds_with
       (UserRoutes.assign_roles_to_user user_id role_ids service) "201" d).
Proof.
  unfold UserRoutes.responds_with.
  split_and!.
  - intros id service H.
    unfold UserRoutes.get_detail, UserRoutes.change_status,
      UserRoutes.delete_user. rewrite H. simpl. split_and!; eauto.
  - intros user_id role_id service H.
    unfold UserRoutes.remove_role_from_user. rewrite H. simpl. eauto.
  - intros id data service H.
    unfold UserRoutes.update_user. rewrite H. simpl. eauto.
  - intros user_data service H.
    unfold UserRoutes.create_user. rewrite H. simpl. eauto.
  - intros user_id role_ids service H.
    unfold UserRoutes.assign_roles_to_user. rewrite H. simpl. eauto.
Qed.

Lemma handlers_pass_service_data_witness :
  UserRoutes.responds_with
    (UserRoutes.create_user "carol"
       (λ name, UserRoutes.Returns (name +:+ "#3"))) "201" "carol#3".
Proof.
  apply (proj1 (proj2 (proj2 (proj2
           (handlers_pass_service_data
              (Data := string) (UserRequestUpdate := unit)
              (UserRegisterRequest := string) "carol#3"))))
           "carol" (λ name, UserRoutes.Returns (name +:+ "#3"))).
  reflexivity.
Defined.

(** ** [get] and [get_roles_of_user], beyond the status and the code *)

Lemma append_nil_r (s : string) : s +:+ "" = s.
Proof. induction s as [|c s IH]; [done |]. rewrite append_cons_l. by rewrite IH. Qed.

Lemma str_contains_eq (needle hay : string) :
  ApiUser.str_contains needle hay =
  match strip_prefix needle hay with
  | Some _ => true
  | None =>
      match hay with
      | EmptyString => false
      | String _ hay' => ApiUser.str_contains needle hay'
      end
  end.
Proof. by destruct hay. Qed.

Lemma str_contains_prefix (needle rest : string) :
  ApiUser.str_contains needle (needle +:+ rest) = true.
Proof. by rewrite str_contains_eq, strip_prefix_app. Qed.

Lemma str_contains_app_r (needle before after : string) :
  ApiUser.str_contains needle after = true →
  ApiUser.str_contains needle (before +:+ after) = true.
Proof.
  intros H. induction before as [|c before IH]; [done |].
  rewrite str_contains_eq, append_cons_l.
  by destruct (strip_prefix needle (String c (before +:+ after))).
Qed.

Lemma str_contains_refl (needle : string) :
  ApiUser.str_contains needle needle = true.
Proof.
  rewrite <- (append_nil_r needle) at 2. apply str_contains_prefix.
Qed.

(** X15: [get] responds with a page exactly when the service returned a
    query and paginating that query with the request's parameters
    returned this page; it then prints nothing. *)
Theorem get_responds_iff
    {Query Params Page : Type} (params : Params)
    (get_all_user : ApiUser.outcome Query)
    (paginate : Query → Params → ApiUser.outcome Page) (users : Page) :
  ApiUser.response (ApiUser.get params get_all_user paginate) = inl users ↔
  ∃ query, get_all_user = ApiUser.Return query ∧
           paginate query params = ApiUser.Return users ∧
           ApiUser.printed (ApiUser.get params get_all_user paginate) = [].
Proof.
  unfold ApiUser.get, ApiUser.get_body.
  destruct get_all_user as [q|e]; simpl.
  - destruct (paginate q params) as [page|e] eqn:Hp; simpl; split.
    + intros [= ->]. by exists q.
    + intros (q' & [= <-] & H & _). rewrite Hp in H. by injection H as ->.
    + done.
    + intros (q' & [= <-] & H & _). by rewrite Hp in H.
  - split; [done | by intros (? & ? & _)].
Qed.

(** X16: when the body of [get] or of [get_roles_of_user] raises an
    exception [e], the message of the [CustomException] is
    [str(e) + ": " + traceback]: it contains the whole formatted stack
    trace, which is also the line the handler prints. *)
Theorem handler_error_message_holds_traceback
    {Query Params Page Data : Type} (e : ApiUser.Caught) :
  (∀ (params : Params) (get_all_user : ApiUser.outcome Query)
     (paginate : Query → Params → ApiUser.outcome Page),
     ApiUser.get_body params get_all_user paginate = ApiUser.Raised e →
     ∃ m,
       ApiUser.error_message (ApiUser.get params get_all_user paginate)
         = Some m ∧
       m = ApiUser.str e +:+ ": " +:+ ApiUser.format_exc e ∧
       ApiUser.str_contains (ApiUser.format_exc e) m = true ∧
       ApiUser.printed (ApiUser.get params get_all_user paginate)
         = ["Error occurred: " +:+ ApiUser.format_exc e]) ∧
  (∀ (user_id : Z) (get_roles_by_user_id : Z → ApiUser.outcome Data),
     get_roles_by_user_id user_id = ApiUser.Raised e →
     ∃ m,
       ApiUser.error_message
         (ApiUser.get_roles_of_user user_id get_roles_by_user_id) = Some m ∧
       m = ApiUser.str e +:+ ": " +:+ ApiUser.format_exc e ∧
       ApiUser.str_contains (ApiUser.format_exc e) m = true ∧
       ApiUser.printed
         (ApiUser.get_roles_of_user user_id get_roles_by_user_id)
         = ["Error occurred: " +:+ ApiUser.format_exc e]).
Proof.
  assert (ApiUser.str_contains (ApiUser.format_exc e)
            (ApiUser.str e +:+ ": " +:+ ApiUser.format_exc e) = true) as Hin.
  { do 2 apply str_contains_app_r. apply str_contains_refl. }
  split.
  - intros params get_all_user paginate H.
    rewrite (get_raised _ _ _ e H). eexists. by split_and!.
  - intros user_id get_roles H.
    rewrite (get_roles_of_user_raised _ _ e H). eexists. by split_and!.
Qed.

Lemma handler_error_message_holds_traceback_witness :
  ∃ m,
    ApiUser.error_message Sample.roles_service_down = Some m ∧
    m = ApiUser.str Sample.db_down +:+ ": "
          +:+ ApiUser.format_exc Sample.db_down ∧
    ApiUser.str_contains (ApiUser.format_exc Sample.db_down) m = true ∧
    ApiUser.printed Sample.roles_service_down
      = ["Error occurred: " +:+ ApiUser.format_exc Sample.db_down].
Proof.
  apply (proj2 (handler_error_message_holds_traceback
                  (Query := unit) (Params := unit) (Page := unit)
                  (Data := unit) Sample.db_down)
           7 (λ _, ApiUser.Raised Sample.db_down)).
  reflexivity.
Defined.

(** ** Resolution reads the user name only *)

Lemma query_first_fmap (f : User → User) (session : list User)
    (username : JVal) :
  (∀ u, user_name (f u) = user_name u) →
  Security.query_first (f <$> session) username =
  f <$> Security.query_first session username.
Proof.
  intros Hf. unfold Security.query_first.
  induction session as [|u session IH]; [done |].
  rewrite fmap_cons, !filter_cons, Hf.
  destruct (decide (VStr (user_name u) = username)); [done | apply IH].
Qed.

(** X17: [get_current_user] reads nothing of a row but its user name:
    rewriting the rows of the user table in any way that keeps their user
    names (locking accounts, changing password hashes or ids) changes the
    outcome only by that rewriting of the returned row; a request that
    was denied stays denied in the same way. *)
Theorem get_current_user_reads_user_name_only
    (settings : Settings) (tok : Jwt.Token) (session : list User) (now : Z)
    (f : User → User) :
  (∀ u, user_name (f u) = user_name u) →
  Security.get_current_user settings tok (f <$> session) now =
  Pipeline.result_map f
    (Security.get_current_user settings tok session now).
Proof.
  intros Hf. unfold Security.get_current_user.
  destruct (Security.token_subject settings tok now) as [username|e]; [| done].
  simpl. rewrite query_first_fmap by done.
  by destruct (Security.query_first session username).
Qed.

Lemma get_current_user_reads_user_name_only_witness :
  Security.get_current_user Sample.settings (Sample.token_for "alice")
    ((λ u, {| id := id u; user_name := user_name u;
              hash_password := hash_password u; is_active := false |})
       <$> Sample.session) 1001000000 =
  Ok {| id := 1; user_name := "alice"; hash_password := "x";
        is_active := false |}.
Proof.
  apply (get_current_user_reads_user_name_only Sample.settings
           (Sample.token_for "alice") Sample.session 1001000000
           (λ u, {| id := id u; user_name := user_name u;
                    hash_password := hash_password u; is_active := false |})).
  reflexivity.
Defined.
